(** * ai-health-chain front end: formatting helpers and component state logic

    A shallow embedding of the logic found in the React components and in
    [utils/formatUtilService], followed by the properties proved of it.

    Definitions:
    - [JsString], [JsNumber], [JsDate]
                            the parts of JavaScript's [String], [Number] and
                            [Date] used
    - [Format]              [truncateDescription], [formatWalletAddress], [formatDate]
    - [Expand]              MedicalRecordCard's expand/collapse toggle object
    - [Entity], [Api]       the records of the API and the calls made through
                            [apiService], as a small free monad
    - [ConsentManagement], [ConcentCard], [TransactionHistory], [PatientList],
      [PatientDetail], [StatsDashboard]
                            state cells, fetch functions, handlers and the
                            branch structure of each render
    - [Debounce]            PatientList's search effect over the browser's
                            timers and clock
    - [TransactionCard]     the type badge and status icon
    - [Sample], [Fixture]   data and servers used in examples

    JavaScript strings are sequences of UTF-16 code units; they are embedded as
    [string], one character per code unit.  JavaScript numbers that carry
    lengths, page numbers and limits are embedded as [Z]; where the code adds
    to or subtracts from one, the result is rounded as a double rounds it
    ([JsNumber]).  An async function is
    embedded as the tree of calls it awaits; state updates made around an
    [await] are applied in program order, with no other update in between. *)

From Stdlib Require Import ZArith Lia Bool List Ascii String DecimalString.
From stdpp Require Import gmap strings list fin_maps.
Import ListNotations.

Local Open Scope string_scope.
Local Open Scope Z_scope.

(* ===================================================================== *)
(** ** JavaScript string primitives *)
(* ===================================================================== *)

Module JsString.

(** The first [n] code units of [s] (all of [s] when it is shorter). *)
Fixpoint take (n : nat) (s : string) : string :=
  match n, s with
  | S n', String c s' => String c (take n' s')
  | _, _ => EmptyString
  end.

(** [s] without its first [n] code units. *)
Fixpoint drop (n : nat) (s : string) : string :=
  match n, s with
  | S n', String _ s' => drop n' s'
  | _, _ => s
  end.

(** [s.length] as a JavaScript number. *)
Definition len (s : string) : Z := Z.of_nat (String.length s).

(** ECMAScript [String.prototype.slice], steps 4-7: a negative index counts
    from the end, and both ends are clamped into [0 .. len]. *)
Definition clamp (len i : Z) : Z :=
  if i <? 0 then Z.max (len + i) 0 else Z.min i len.

(** [s.slice(start, end)]; [None] stands for an omitted [end]. *)
Definition slice (s : string) (start : Z) (end_ : option Z) : string :=
  let from := clamp (len s) start in
  let to := match end_ with
            | None => len s
            | Some e => clamp (len s) e
            end in
  take (Z.to_nat (Z.max (to - from) 0)) (drop (Z.to_nat from) s).

(** JavaScript truthiness of a value that is a string, [null] or
    [undefined]: only a non-empty string is truthy. *)
Definition truthy (v : option string) : bool :=
  match v with
  | Some (String _ _) => true
  | _ => false
  end.

(** [v || fallback] for such a value. *)
Definition or_else (v : option string) (fallback : string) : string :=
  match v with
  | Some (String c s) => String c s
  | _ => fallback
  end.

End JsString.

(* ===================================================================== *)
(** ** JavaScript numbers that hold integers *)
(* ===================================================================== *)

(** A JavaScript number is a double.  The page cursor holds integers; an
    integer is a double when it fits a 53-bit significand, and a sum is
    rounded to the nearest such value, ties to the even significand.  One
    more or one less than a finite double never overflows. *)

Module JsNumber.

(** [Number.MAX_SAFE_INTEGER], 2^53 - 1. *)
Definition maxSafeInteger : Z := 9007199254740991.

(** The double nearest to the integer [z]. *)
Definition round (z : Z) : Z :=
  let a := Z.abs z in
  if a <=? maxSafeInteger then z
  else
    let unit := 2 ^ (Z.log2 a - 52) in
    let q := a / unit in
    let r := a mod unit in
    let q' := if 2 * r <? unit then q
              else if unit <? 2 * r then q + 1
              else if Z.even q then q else q + 1 in
    Z.sgn z * (q' * unit).

(** [a + b] and [a - b] on integers held in doubles. *)
Definition add (a b : Z) : Z := round (a + b).
Definition sub (a b : Z) : Z := round (a - b).

End JsNumber.

(* ===================================================================== *)
(** ** JavaScript [Date]: parsing and the local calendar day *)
(* ===================================================================== *)

(** [new Date(string)] and [toLocaleDateString] are built into the engine.
  What [formatDate] needs of them is embedded here: the ECMAScript date-time
  string format [YYYY-MM-DD] and [YYYY-MM-DDTHH:mm(:ss(.sss))(Z|+HH:mm|-HH:mm)],
  the proleptic Gregorian calendar, and the host's time zone, which
  [toLocaleDateString] reads when its options name no [timeZone].  The host
  zone is an explicit argument, as minutes east of UTC. *)

Module JsDate.

Definition msPerMinute : Z := 60000.
Definition msPerDay : Z := 86400000.

Definition is_leap (y : Z) : bool :=
  ((y mod 4 =? 0) && negb (y mod 100 =? 0)) || (y mod 400 =? 0).

Definition days_in_month (y m : Z) : Z :=
  if m =? 2 then (if is_leap y then 29 else 28)
  else if (m =? 4) || (m =? 6) || (m =? 9) || (m =? 11) then 30
  else 31.

(** Days from 1970-01-01 to the civil date [y-m-d]. *)
Definition days_from_civil (y m d : Z) : Z :=
  let y' := if m <=? 2 then y - 1 else y in
  let era := y' / 400 in
  let yoe := y' - era * 400 in
  let mp := (m + 9) mod 12 in
  let doy := (153 * mp + 2) / 5 + d - 1 in
  let doe := yoe * 365 + yoe / 4 - yoe / 100 + doy in
  era * 146097 + doe - 719468.

(** The civil date of day number [z], as (year, month, day). *)
Definition civil_from_days (z : Z) : Z * Z * Z :=
  let z := z + 719468 in
  let era := z / 146097 in
  let doe := z - era * 146097 in
  let yoe := (doe - doe / 1460 + doe / 36524 - doe / 146096) / 365 in
  let doy := doe - (365 * yoe + yoe / 4 - yoe / 100) in
  let mp := (5 * doy + 2) / 153 in
  let d := doy - (153 * mp + 2) / 5 + 1 in
  let m := if mp <? 10 then mp + 3 else mp - 9 in
  let y := yoe + era * 400 in
  (if m <=? 2 then y + 1 else y, m, d).

Definition digit (c : Ascii.ascii) : option Z :=
  let n := Z.of_N (Ascii.N_of_ascii c) - 48 in
  if (0 <=? n) && (n <=? 9) then Some n else None.

(** Read exactly [n] decimal digits. *)
Fixpoint digits (n : nat) (acc : Z) (s : string) : option (Z * string) :=
  match n with
  | O => Some (acc, s)
  | S n' =>
      match s with
      | String c s' =>
          match digit c with
          | Some d => digits n' (10 * acc + d) s'
          | None => None
          end
      | EmptyString => None
      end
  end.

Definition expect (c : Ascii.ascii) (s : string) : option string :=
  match s with
  | String c' s' => if Ascii.eqb c c' then Some s' else None
  | EmptyString => None
  end.

(** Optional [":ss"] and [".sss"]: milliseconds past the minute. *)
Definition seconds (s : string) : option (Z * string) :=
  match expect ":"%char s with
  | None => Some (0, s)
  | Some s1 =>
      '(ss, s2) ← digits 2 0 s1;
      if ss <=? 59 then
        match expect "."%char s2 with
        | None => Some (ss * 1000, s2)
        | Some s3 => '(ms, s4) ← digits 3 0 s3; Some (ss * 1000 + ms, s4)
        end
      else None
  end.

(** The zone designator: [Some off] is an explicit offset in minutes
    ([Z] is 0), [None] is an absent designator. *)
Definition zone (s : string) : option (option Z) :=
  match s with
  | "" => Some None
  | "Z" => Some (Some 0)
  | String c s1 =>
      let sign := if Ascii.eqb c "+"%char then Some 1
                  else if Ascii.eqb c "-"%char then Some (-1) else None in
      sg ← sign;
      '(hh, s2) ← digits 2 0 s1;
      s3 ← expect ":"%char s2;
      '(mm, s4) ← digits 2 0 s3;
      if (hh <=? 23) && (mm <=? 59) && String.eqb s4 ""
      then Some (Some (sg * (hh * 60 + mm))) else None
  end.

(** [Date.parse]: the time value, in milliseconds since the epoch, of a
    string in the format above; [None] for every other string.  Without a
    zone designator a date-only form is UTC and a date-time form is local
    time (ECMAScript, Date Time String Format). *)
Definition parse (hostOffset : Z) (s : string) : option Z :=
  '(y, s) ← digits 4 0 s;
  s ← expect "-"%char s;
  '(m, s) ← digits 2 0 s;
  s ← expect "-"%char s;
  '(d, s) ← digits 2 0 s;
  if (1 <=? m) && (m <=? 12) && (1 <=? d) && (d <=? days_in_month y m) then
    let day := days_from_civil y m d * msPerDay in
    match s with
    | "" => Some day
    | _ =>
        s ← expect "T"%char s;
        '(hh, s) ← digits 2 0 s;
        s ← expect ":"%char s;
        '(mm, s) ← digits 2 0 s;
        '(ms, s) ← seconds s;
        off ← zone s;
        if (hh <=? 23) && (mm <=? 59) then
          let wall := day + hh * 3600000 + mm * msPerMinute + ms in
          Some (wall - default hostOffset off * msPerMinute)
        else None
    end
  else None.

Definition month_short (m : Z) : string :=
  match m with
  | 1 => "Jan" | 2 => "Feb" | 3 => "Mar" | 4 => "Apr" | 5 => "May"
  | 6 => "Jun" | 7 => "Jul" | 8 => "Aug" | 9 => "Sep" | 10 => "Oct"
  | 11 => "Nov" | _ => "Dec"
  end.

Definition decimal (n : Z) : string :=
  NilEmpty.string_of_uint (N.to_uint (Z.to_N n)).

(** [toLocaleDateString("en-US", {year: "numeric", month: "short",
    day: "numeric"})] of time value [t] on a host whose zone is
    [hostOffset] minutes east of UTC; years before 1 are left out. *)
Definition toLocaleDateString (hostOffset t : Z) : option string :=
  let '(y, m, d) := civil_from_days ((t + hostOffset * msPerMinute) / msPerDay) in
  if 1 <=? y
  then Some (month_short m +:+ " " +:+ decimal d +:+ ", " +:+ decimal y)
  else None.

End JsDate.

(* ===================================================================== *)
(** ** utils/formatUtilService: text helpers *)
(* ===================================================================== *)

Module Format.

Import JsString.

(** [truncateDescription(text, maxLength)] *)
Definition truncateDescription (text : string) (maxLength : Z) : string :=
  if len text <=? maxLength then text
  else slice text 0 (Some maxLength) +:+ "...".

(** [formatWalletAddress(address)]; [None] is [null] or [undefined]. *)
Definition formatWalletAddress (address : option string) : string :=
  match address with
  | Some (String c a) =>
      let address := String c a in
      slice address 0 (Some 8) +:+ "..." +:+ slice address (-6) None
  | _ => ""
  end.

(** [formatDate(dateString)] on a host whose time zone is [hostOffset]
    minutes east of UTC; [None] when [dateString] is outside the embedded
    date-time format. *)
Definition formatDate (hostOffset : Z) (dateString : string) : option string :=
  t ← JsDate.parse hostOffset dateString;
  JsDate.toLocaleDateString hostOffset t.

End Format.

(* ===================================================================== *)
(** ** MedicalRecordCard: the expand/collapse toggle *)
(* ===================================================================== *)

Module Expand.

(** Names every object literal inherits from [Object.prototype]; reading
    one of them from an object that has no own property of that name gives a
    function or an object, which is truthy. *)
Definition inherited (key : string) : bool :=
  bool_decide (key ∈ ["constructor"; "hasOwnProperty"; "isPrototypeOf";
                      "propertyIsEnumerable"; "toLocaleString"; "toString";
                      "valueOf"; "__proto__"; "__defineGetter__";
                      "__defineSetter__"; "__lookupGetter__";
                      "__lookupSetter__"]).

(** Truthiness of [expandedRecords[recordId]].  The object starts as [{}]
    and only [toggleExpand] writes to it, so its own properties hold
    booleans; a missing key reads [undefined] unless it is inherited. *)
Definition expanded (expandedRecords : gmap string bool) (recordId : string) : bool :=
  match expandedRecords !! recordId with
  | Some b => b
  | None => inherited recordId
  end.

(** [toggleExpand(recordId)]: the updater
    [prev => ({...prev, [recordId]: !prev[recordId]})]. *)
Definition toggleExpand (recordId : string) (prev : gmap string bool) : gmap string bool :=
  <[recordId := negb (expanded prev recordId)]> prev.

(** The description paragraph of the card for a record with this id and
    description. *)
Definition shownDescription (expandedRecords : gmap string bool)
    (recordId description : string) : string :=
  if expanded expandedRecords recordId then description
  else Format.truncateDescription description 200.

(** The label of the expand button, shown only for descriptions longer than
    200 code units. *)
Definition expandButton (expandedRecords : gmap string bool)
    (recordId description : string) : option string :=
  if 200 <? JsString.len description
  then Some (if expanded expandedRecords recordId then "Show less" else "Read more")
  else None.

End Expand.

(* ===================================================================== *)
(** ** Entities received from the API *)
(* ===================================================================== *)

Module Entity.

Record Patient := {
  p_id : string;
  p_patientId : string;
  p_name : string;
  p_dateOfBirth : string;
  p_gender : string;
  p_email : string;
  p_phone : string;
  p_address : string;
  p_walletAddress : string;
  p_createdAt : string;
}.

Record MedicalRecord := {
  r_id : string;
  r_type : string;
  r_title : string;
  r_date : string;
  r_description : string;
  r_doctor : string;
  r_hospital : string;
  r_status : string;
  r_blockchainHash : string;
}.

Record Consent := {
  c_id : string;
  c_patientId : string;
  c_purpose : string;
  c_status : string;
  c_walletAddress : string;
  c_createdAt : string;
  c_blockchainTxHash : option string;
}.

Record Transaction := {
  t_id : string;
  t_type : string;
  t_amount : string;
  t_currency : string;
  t_status : string;
  t_from : string;
  t_to : string;
  t_blockNumber : Z;
  t_timestamp : string;
  t_gasUsed : string;
  t_blockchainTxHash : string;
}.

Record Stats := {
  totalPatients : Z;
  totalRecords : Z;
  totalConsents : Z;
  activeConsents : Z;
  pendingConsents : Z;
  totalTransactions : Z;
}.

End Entity.

(* ===================================================================== *)
(** ** The collaborators: [apiService], the wallet, [alert] *)
(* ===================================================================== *)

Module Api.

Import Entity.

(** A thrown or rejected value, as far as the components look at it: its
    [message] property, [None] when it has none. *)
Record JsError := { message : option string }.

(** [response.pagination] of a patients page. *)
Record ServerPagination := {
  page : Z;
  totalPages : Z;
  total : Z;
  limit : Z;
}.

(** Responses are JSON objects; a property that is absent or [null] is
    [None].  Reading [response.pagination.page] when [pagination] is absent or
    [null] throws a [TypeError]; its message is worded by the engine and
    differs between the two cases (V8: "Cannot read properties of undefined
    (reading 'page')" and "Cannot read properties of null (reading 'page')"),
    so the thrown error comes with the response, as [pageReadError]; it is
    not looked at when [pagination] is an object. *)
Record PatientsResponse := {
  patients : option (list Patient);
  pagination : option ServerPagination;
  pageReadError : JsError;
}.

(** The records response is either an object, with or without a [records]
    property, or a bare array. *)
Inductive RecordsResponse :=
| Wrapped (records : option (list MedicalRecord))
| Direct (elements : list MedicalRecord).

Record ConsentsResponse := { consents : option (list Consent) }.

Record TransactionsResponse := { transactions : option (list Transaction) }.

(** The body of [apiService.createConsent]. *)
Record ConsentRequest := {
  patientId : string;
  purpose : string;
  walletAddress : string;
  signature : string;
}.

(** The body of [apiService.updateConsent]: an object literal, as its
    properties in order. *)
Definition ConsentUpdate := list (string * string).

(** One asynchronous call to a collaborator, indexed by what it resolves
    to. *)
Inductive call : Type -> Type :=
| getPatients (page limit : Z) (search : string) : call PatientsResponse
| getPatient (id : string) : call (option Patient)
| getPatientRecords (id : string) : call RecordsResponse
| getConsents (patientId status : option string) : call ConsentsResponse
| createConsent (body : ConsentRequest) : call unit
| updateConsent (id : string) (body : ConsentUpdate) : call unit
| getTransactions (wallet : option string) (limit : Z) : call TransactionsResponse
| getStats : call (option Stats)
| signMessage (msg : string) : call string
| alert (msg : string) : call unit.

(** How an awaited promise settles. *)
Inductive settled (R : Type) :=
| Resolved (r : R)
| Rejected (err : JsError).
Arguments Resolved {R} r.
Arguments Rejected {R} err.

(** An async function up to its result: a tree of awaited calls. *)
Inductive prog (A : Type) :=
| Ret (a : A)
| Await {R : Type} (c : call R) (k : settled R -> prog A)
| AwaitAll {R1 R2 : Type} (c1 : call R1) (c2 : call R2)
    (k : settled (R1 * R2) -> prog A).
Arguments Ret {A} a.
Arguments Await {A R} c k.
Arguments AwaitAll {A R1 R2} c1 c2 k.

(** A call that was issued, without its result. *)
Inductive request :=
| Request (R : Type) (c : call R).
Arguments Request {R} c.

(** The [updateConsent] call behind a request, if it is one. *)
Definition updateConsent_of (q : request) : option (string * ConsentUpdate) :=
  match q with
  | Request c =>
      match c with
      | updateConsent id body => Some (id, body)
      | _ => None
      end
  end.

(** The collaborators' side: how each call settles, given their own state
    [W], and, for two calls pending together, whether the second settles
    before the first. *)
Record server (W : Type) := Server {
  respond :> forall R, call R -> W -> settled R * W;
  secondSettlesFirst : W -> bool;
}.
Arguments Server {W} respond secondSettlesFirst.
Arguments respond {W} s R c w : simpl never.
Arguments secondSettlesFirst {W} s w : simpl never.

(** A server whose calls settle in the order they were issued. *)
Definition inOrder {W} (respond : forall R, call R -> W -> settled R * W) : server W :=
  Server respond (fun _ => false).

(** [Promise.all] of two calls: resolved with both results when both
    resolve, and otherwise rejected with the rejection that settles first,
    the only one when one call is rejected, the earlier of the two when both
    are. *)
Definition promise_all {R1 R2} (secondFirst : bool)
    (r1 : settled R1) (r2 : settled R2) : settled (R1 * R2) :=
  match r1, r2 with
  | Resolved a, Resolved b => Resolved (a, b)
  | Rejected e, Resolved _ => Rejected e
  | Resolved _, Rejected e => Rejected e
  | Rejected e1, Rejected e2 => Rejected (if secondFirst then e2 else e1)
  end.

(** Run an async function against a server: its result, the server's final
    state and the calls issued, in order. *)
Fixpoint run {W A} (srv : server W) (w : W) (p : prog A) : A * W * list request :=
  match p with
  | Ret a => (a, w, [])
  | Await c k =>
      let '(r, w1) := srv _ c w in
      let '(a, w2, tr) := run srv w1 (k r) in
      (a, w2, Request c :: tr)
  | AwaitAll c1 c2 k =>
      let '(r1, w1) := srv _ c1 w in
      let '(r2, w2) := srv _ c2 w1 in
      let '(a, w3, tr) :=
        run srv w2 (k (promise_all (secondSettlesFirst srv w) r1 r2)) in
      (a, w3, Request c1 :: Request c2 :: tr)
  end.

(** Sequencing: [await p] followed by [f]. *)
Fixpoint bind {A B} (p : prog A) (f : A -> prog B) : prog B :=
  match p with
  | Ret a => f a
  | Await c k => Await c (fun r => bind (k r) f)
  | AwaitAll c1 c2 k => AwaitAll c1 c2 (fun r => bind (k r) f)
  end.

Definition result {W A} (srv : server W) (w : W) (p : prog A) : A :=
  fst (fst (run srv w p)).

Definition requests {W A} (srv : server W) (w : W) (p : prog A) : list request :=
  snd (run srv w p).

(** [err.message || fallback] *)
Definition message_or (err : JsError) (fallback : string) : string :=
  JsString.or_else (message err) fallback.

(** ['...' + err.message] *)
Definition message_text (err : JsError) : string :=
  default "undefined" (message err).

(** What a rendered component shows: its loading box, its error box, or
    its content. *)
Inductive view (C : Type) :=
| LoadingBox (text : string)
| ErrorBox (text : string)
| Content (c : C).
Arguments LoadingBox {C} text.
Arguments ErrorBox {C} text.
Arguments Content {C} c.

End Api.

(* ===================================================================== *)
(** ** components/ConsentManagement and components/ConcentCard *)
(* ===================================================================== *)

Module ConsentManagement.

Import Entity.
Import Api (prog, Ret, Await, Resolved, Rejected, view, LoadingBox, ErrorBox, Content).

(** The component's [useState] cells. *)
Record State := {
  consents : list Consent;
  loading : bool;
  error : option string;
  filterStatus : string;
  showCreateForm : bool;
  formData_patientId : string;
  formData_purpose : string;
}.

Definition initial : State :=
  {| consents := []; loading := true; error := None; filterStatus := "all";
     showCreateForm := false; formData_patientId := ""; formData_purpose := "" |}.

Definition setConsents (v : list Consent) (s : State) : State :=
  {| consents := v; loading := loading s; error := error s;
     filterStatus := filterStatus s; showCreateForm := showCreateForm s;
     formData_patientId := formData_patientId s;
     formData_purpose := formData_purpose s |}.

Definition setLoading (v : bool) (s : State) : State :=
  {| consents := consents s; loading := v; error := error s;
     filterStatus := filterStatus s; showCreateForm := showCreateForm s;
     formData_patientId := formData_patientId s;
     formData_purpose := formData_purpose s |}.

Definition setError (v : option string) (s : State) : State :=
  {| consents := consents s; loading := loading s; error := v;
     filterStatus := filterStatus s; showCreateForm := showCreateForm s;
     formData_patientId := formData_patientId s;
     formData_purpose := formData_purpose s |}.

Definition setFilterStatus (v : string) (s : State) : State :=
  {| consents := consents s; loading := loading s; error := error s;
     filterStatus := v; showCreateForm := showCreateForm s;
     formData_patientId := formData_patientId s;
     formData_purpose := formData_purpose s |}.

Definition setShowCreateForm (v : bool) (s : State) : State :=
  {| consents := consents s; loading := loading s; error := error s;
     filterStatus := filterStatus s; showCreateForm := v;
     formData_patientId := formData_patientId s;
     formData_purpose := formData_purpose s |}.

Definition setFormData (patientId purpose : string) (s : State) : State :=
  {| consents := consents s; loading := loading s; error := error s;
     filterStatus := filterStatus s; showCreateForm := showCreateForm s;
     formData_patientId := patientId; formData_purpose := purpose |}.

(** The call of [fetchConsents]:
    [apiService.getConsents(null, filterStatus === 'all' ? null : filterStatus)]. *)
Definition consentsRequest (s : State) : Api.call Api.ConsentsResponse :=
  Api.getConsents None
    (if String.eqb (filterStatus s) "all" then None else Some (filterStatus s)).

(** [fetchConsents]: the [finally] block runs on both paths. *)
Definition fetchConsents (s : State) : prog State :=
  let s := setError None (setLoading true s) in
  Await (consentsRequest s)
    (fun r =>
       let s :=
         match r with
         | Resolved response =>
             setError None (setConsents (default [] (Api.consents response)) s)
         | Rejected err =>
             setConsents [] (setError (Some (Api.message_or err "Failed to fetch consents")) s)
         end in
       Ret (setLoading false s)).

(** [handleCreateConsent], after [e.preventDefault()]. *)
Definition handleCreateConsent (account : option string) (s : State) : prog State :=
  match account with
  | Some (String c a) =>
      let failed err :=
        Await (Api.alert ("Failed to create consent: " +:+ Api.message_text err))
          (fun _ => Ret s) in
      let message := "I consent to: " +:+ formData_purpose s +:+
                     " for patient: " +:+ formData_patientId s in
      Await (Api.signMessage message) (fun r =>
        match r with
        | Rejected err => failed err
        | Resolved signature =>
            Await (Api.createConsent
                     {| Api.patientId := formData_patientId s;
                        Api.purpose := formData_purpose s;
                        Api.walletAddress := String c a;
                        Api.signature := signature |}) (fun r =>
              match r with
              | Rejected err => failed err
              | Resolved _ =>
                  Api.bind (fetchConsents s) (fun s =>
                    let s := setShowCreateForm false (setFormData "" "" s) in
                    Await (Api.alert "Consent created successfully!") (fun _ => Ret s))
              end)
        end)
  | _ => Await (Api.alert "Please connect your wallet first") (fun _ => Ret s)
  end.

(** [handleUpdateStatus]: it declares one parameter, [consentId]. *)
Definition handleUpdateStatus (consentId : string) (s : State) : prog State :=
  Await (Api.updateConsent consentId [("status", "active")]) (fun r =>
    match r with
    | Resolved _ => fetchConsents s
    | Rejected err =>
        Await (Api.alert ("Failed to update consent: " +:+ Api.message_text err))
          (fun _ => Ret s)
    end).

(** The [onUpdateStatus] prop handed to each ConcentCard is
    [handleUpdateStatus] itself; a card calls it with two arguments, and the
    call binds the first to [consentId] and drops the second. *)
Definition onUpdateStatus (consentId status : string) (s : State) : prog State :=
  handleUpdateStatus consentId s.

(** What the main branch of the render shows. *)
Record Shown := {
  createDisabled : bool;
  walletWarning : bool;
  createForm : bool;
  filterButtons : bool;
  cards : list Consent;
}.

Definition render (account : option string) (s : State) : view Shown :=
  if loading s then LoadingBox "Loading consents..."
  else if JsString.truthy (error s) then ErrorBox ("Error: " +:+ default "" (error s))
  else Content
    {| createDisabled := negb (JsString.truthy account);
       walletWarning := negb (JsString.truthy account);
       createForm := showCreateForm s && JsString.truthy account;
       filterButtons := negb (Nat.eqb (length (consents s)) 0);
       cards := consents s |}.

End ConsentManagement.

Module ConcentCard.

Import Entity.
Import Api (prog, Ret).

(** [handleApprove]: calls the [onUpdateStatus] prop, when there is one, with
    the consent's id and ['active']. *)
Definition handleApprove {S} (consent : Consent)
    (onUpdateStatus : option (string -> string -> S -> prog S)) (s : S) : prog S :=
  match onUpdateStatus with
  | Some f => f (c_id consent) "active" s
  | None => Ret s
  end.

(** The Approve button is rendered for pending consents only. *)
Definition approveShown (consent : Consent) : bool :=
  String.eqb (c_status consent) "pending".

End ConcentCard.

(* ===================================================================== *)
(** ** components/TransactionHistory *)
(* ===================================================================== *)

Module TransactionHistory.

Import Entity.
Import Api (prog, Ret, Await, Resolved, Rejected, view, LoadingBox, ErrorBox, Content).

Record State := {
  transactions : list Transaction;
  loading : bool;
  error : option string;
}.

Definition initial : State :=
  {| transactions := []; loading := true; error := None |}.

Definition setTransactions (v : list Transaction) (s : State) : State :=
  {| transactions := v; loading := loading s; error := error s |}.

Definition setLoading (v : bool) (s : State) : State :=
  {| transactions := transactions s; loading := v; error := error s |}.

Definition setError (v : option string) (s : State) : State :=
  {| transactions := transactions s; loading := loading s; error := v |}.

(** [fetchTransactions] *)
Definition fetchTransactions (s : State) : prog State :=
  let s := setError None (setLoading true s) in
  Await (Api.getTransactions None 20) (fun r =>
    let s :=
      match r with
      | Resolved response =>
          setError None (setTransactions (default [] (Api.transactions response)) s)
      | Rejected err =>
          setTransactions [] (setError (Some (Api.message_or err "Failed to fetch transactions")) s)
      end in
    Ret (setLoading false s)).

(** The effect that runs when the [account] prop changes. *)
Definition accountEffect (account : option string) (s : State) : prog State :=
  if JsString.truthy account then fetchTransactions s
  else Ret (setLoading false (setTransactions [] s)).

(** The main branch of the render: the "Filtering for:" indicator, when
    there is an account, and the cards (none: "No transactions found for this
    wallet address."). *)
Record Shown := {
  walletFilter : option string;
  cards : list Transaction;
}.

Definition render (account : option string) (s : State) : view Shown :=
  if loading s then LoadingBox "Loading transactions..."
  else if JsString.truthy (error s) then ErrorBox ("Error: " +:+ default "" (error s))
  else Content
    {| walletFilter :=
         if JsString.truthy account
         then Some ("Filtering for: " +:+ Format.formatWalletAddress account)
         else None;
       cards := transactions s |}.

End TransactionHistory.

(* ===================================================================== *)
(** ** PatientList *)
(* ===================================================================== *)

Module PatientList.

Import Entity.
Import Api (prog, Ret, Await, Resolved, Rejected, view, LoadingBox, ErrorBox, Content).

(** The [pagination] cell: the server's object spread into a new one, with
    the two flags added (a flag of the same name in the server's object would
    be overwritten). *)
Record Pagination := {
  reported : Api.ServerPagination;
  hasNextPage : bool;
  hasPrevPage : bool;
}.

Record State := {
  patients : list Patient;
  loading : bool;
  error : option string;
  searchTerm : string;
  searchInput : string;
  currentPage : Z;
  pagination : option Pagination;
}.

Definition initial : State :=
  {| patients := []; loading := true; error := None; searchTerm := "";
     searchInput := ""; currentPage := 1; pagination := None |}.

Definition setPatients (v : list Patient) (s : State) : State :=
  {| patients := v; loading := loading s; error := error s;
     searchTerm := searchTerm s; searchInput := searchInput s;
     currentPage := currentPage s; pagination := pagination s |}.

Definition setLoading (v : bool) (s : State) : State :=
  {| patients := patients s; loading := v; error := error s;
     searchTerm := searchTerm s; searchInput := searchInput s;
     currentPage := currentPage s; pagination := pagination s |}.

Definition setError (v : option string) (s : State) : State :=
  {| patients := patients s; loading := loading s; error := v;
     searchTerm := searchTerm s; searchInput := searchInput s;
     currentPage := currentPage s; pagination := pagination s |}.

Definition setSearchTerm (v : string) (s : State) : State :=
  {| patients := patients s; loading := loading s; error := error s;
     searchTerm := v; searchInput := searchInput s;
     currentPage := currentPage s; pagination := pagination s |}.

Definition setSearchInput (v : string) (s : State) : State :=
  {| patients := patients s; loading := loading s; error := error s;
     searchTerm := searchTerm s; searchInput := v;
     currentPage := currentPage s; pagination := pagination s |}.

Definition setCurrentPage (v : Z) (s : State) : State :=
  {| patients := patients s; loading := loading s; error := error s;
     searchTerm := searchTerm s; searchInput := searchInput s;
     currentPage := v; pagination := pagination s |}.

Definition setPagination (v : option Pagination) (s : State) : State :=
  {| patients := patients s; loading := loading s; error := error s;
     searchTerm := searchTerm s; searchInput := searchInput s;
     currentPage := currentPage s; pagination := v |}.

(** The [catch] block. *)
Definition fetchFailed (err : Api.JsError) (s : State) : State :=
  setPatients [] (setError (Some (Api.message_or err "Failed to fetch patients")) s).

(** [fetchPatients] *)
Definition fetchPatients (s : State) : prog State :=
  let s := setError None (setLoading true s) in
  Await (Api.getPatients (currentPage s) 10 (searchTerm s)) (fun r =>
    let s :=
      match r with
      | Resolved response =>
          let s := setPatients (default [] (Api.patients response)) s in
          match Api.pagination response with
          | Some pg =>
              let s := setCurrentPage (Api.page pg) s in
              let s := setPagination
                         (Some {| reported := pg;
                                  hasNextPage := Api.page pg <? Api.totalPages pg;
                                  hasPrevPage := 1 <? Api.page pg |}) s in
              setError None s
          | None => fetchFailed (Api.pageReadError response) s
          end
      | Rejected err => fetchFailed err s
      end in
    Ret (setLoading false s)).

(** [handleSearch] *)
Definition handleSearch (value : string) (s : State) : State :=
  setSearchInput value s.

(** [handlePreviousPage] *)
Definition handlePreviousPage (s : State) : State :=
  match pagination s with
  | Some pg =>
      if hasPrevPage pg then setCurrentPage (JsNumber.sub (currentPage s) 1) s else s
  | None => s
  end.

(** [handleNextPage] *)
Definition handleNextPage (s : State) : State :=
  match pagination s with
  | Some pg =>
      if hasNextPage pg then setCurrentPage (JsNumber.add (currentPage s) 1) s else s
  | None => s
  end.

(** The pagination bar of the main branch. *)
Record Controls := {
  previousDisabled : bool;
  pageOf : Z * Z;
  nextDisabled : bool;
}.

Record Shown := {
  searchBox : string;
  cards : list Patient;
  controls : option Controls;
}.

Definition render (s : State) : view Shown :=
  if loading s then LoadingBox "Loading patients..."
  else if JsString.truthy (error s) then ErrorBox ("Error: " +:+ default "" (error s))
  else Content
    {| searchBox := searchInput s;
       cards := patients s;
       controls :=
         match pagination s with
         | Some pg =>
             Some {| previousDisabled := currentPage s =? 1;
                     pageOf := (currentPage s, Api.totalPages (reported pg));
                     nextDisabled := currentPage s =? Api.totalPages (reported pg) |}
         | None => None
         end |}.

End PatientList.

(* ===================================================================== *)
(** ** PatientDetail *)
(* ===================================================================== *)

Module PatientDetail.

Import Entity.
Import Api (prog, Ret, AwaitAll, Resolved, Rejected, view, LoadingBox, ErrorBox, Content).

Record State := {
  patient : option Patient;
  records : list MedicalRecord;
  loading : bool;
  error : option string;
}.

Definition initial : State :=
  {| patient := None; records := []; loading := true; error := None |}.

Definition setPatient (v : option Patient) (s : State) : State :=
  {| patient := v; records := records s; loading := loading s; error := error s |}.

Definition setRecords (v : list MedicalRecord) (s : State) : State :=
  {| patient := patient s; records := v; loading := loading s; error := error s |}.

Definition setLoading (v : bool) (s : State) : State :=
  {| patient := patient s; records := records s; loading := v; error := error s |}.

Definition setError (v : option string) (s : State) : State :=
  {| patient := patient s; records := records s; loading := loading s; error := v |}.

(** [recordsResponse.records]: an array has no such property. *)
Definition records_of (recordsResponse : Api.RecordsResponse) : option (list MedicalRecord) :=
  match recordsResponse with
  | Api.Wrapped rs => rs
  | Api.Direct _ => None
  end.

(** [fetchPatientData] *)
Definition fetchPatientData (patientId : string) (s : State) : prog State :=
  let s := setError None (setLoading true s) in
  AwaitAll (Api.getPatient patientId) (Api.getPatientRecords patientId) (fun r =>
    let s :=
      match r with
      | Resolved (patientResponse, recordsResponse) =>
          let s := setPatient patientResponse s in
          let s := setRecords (default [] (records_of recordsResponse)) s in
          setError None s
      | Rejected err =>
          setRecords []
            (setPatient None
               (setError (Some (Api.message_or err "Failed to fetch patient data")) s))
      end in
    Ret (setLoading false s)).


Record Shown := {
  information : Patient;
  recordCards : list MedicalRecord;
}.

Definition render (s : State) : view Shown :=
  if loading s then LoadingBox "Loading patient details..."
  else
    match JsString.truthy (error s), patient s with
    | false, Some p => Content {| information := p; recordCards := records s |}
    | _, _ =>
        ErrorBox ("Error loading patient: " +:+ JsString.or_else (error s) "Patient not found")
    end.

End PatientDetail.

(* ===================================================================== *)
(** ** components/StatsDashboard *)
(* ===================================================================== *)

Module StatsDashboard.

Import Entity.
Import Api (prog, Ret, Await, Resolved, Rejected, view, LoadingBox, ErrorBox, Content).

Record State := {
  stats : option Stats;
  loading : bool;
  error : option string;
}.

Definition initial : State := {| stats := None; loading := true; error := None |}.

Definition setStats (v : option Stats) (s : State) : State :=
  {| stats := v; loading := loading s; error := error s |}.

Definition setLoading (v : bool) (s : State) : State :=
  {| stats := stats s; loading := v; error := error s |}.

Definition setError (v : option string) (s : State) : State :=
  {| stats := stats s; loading := loading s; error := v |}.

(** [fetchStats]; [response || null] stores a missing response as null. *)
Definition fetchStats (s : State) : prog State :=
  let s := setError None (setLoading true s) in
  Await Api.getStats (fun r =>
    let s :=
      match r with
      | Resolved response => setError None (setStats response s)
      | Rejected err =>
          setStats None (setError (Some (Api.message_or err "Failed to fetch statistics")) s)
      end in
    Ret (setLoading false s)).

Record StatCard := {
  label : string;
  value : Z;
  description : string;
  isPrimary : bool;
}.

(** [getStatCards] *)
Definition getStatCards (s : State) : list StatCard :=
  match stats s with
  | None => []
  | Some st =>
      [ {| label := "Total Patients"; value := totalPatients st;
           description := "Registered patients in the system"; isPrimary := true |};
        {| label := "Total Records"; value := totalRecords st;
           description := "Medical records stored"; isPrimary := false |};
        {| label := "Total Consents"; value := totalConsents st;
           description := "Consent forms collected"; isPrimary := false |};
        {| label := "Active Consents"; value := activeConsents st;
           description := "Currently active consents"; isPrimary := false |};
        {| label := "Pending Consents"; value := pendingConsents st;
           description := "Awaiting approval"; isPrimary := false |};
        {| label := "Total Transactions"; value := totalTransactions st;
           description := "Blockchain transactions"; isPrimary := false |} ]
  end.

Definition render (s : State) : view (list StatCard) :=
  if loading s then LoadingBox "Loading statistics..."
  else
    match JsString.truthy (error s), stats s with
    | false, Some _ => Content (getStatCards s)
    | _, _ =>
        ErrorBox ("Error loading statistics: " +:+ JsString.or_else (error s) "No data available")
    end.

End StatsDashboard.

(* ===================================================================== *)
(** ** PatientList: the search debounce effect *)
(* ===================================================================== *)

(** The effect
    [useEffect(() => { const timer = setTimeout(() => { setSearchTerm(searchInput);
    setCurrentPage(1); }, 500); return () => clearTimeout(timer); }, [searchInput])]
    runs against the browser's timer table and clock, which are part of the
    state here.  An event handler, the render it causes and the effects of
    that render count as one step. *)

Module Debounce.

(** A pending timeout.  Its callback is the closure created by the effect;
    [captured] is the [searchInput] of the render that created it. *)
Record Timer := {
  timerId : nat;
  due : Z;
  captured : string;
}.

Record State := {
  component : PatientList.State;
  now : Z;
  timers : list Timer;
  nextTimerId : nat;
  cleanup : option nat;
}.

Definition delay : Z := 500.

(** [setTimeout(callback, ms)]: a timer that may run once [ms] milliseconds
    have passed. *)
Definition setTimeout (capturedInput : string) (ms : Z) (st : State) : nat * State :=
  (nextTimerId st,
   {| component := component st; now := now st;
      timers := timers st ++ [{| timerId := nextTimerId st; due := now st + ms;
                                 captured := capturedInput |}];
      nextTimerId := S (nextTimerId st); cleanup := cleanup st |}).

(** [clearTimeout(id)]; an id that is not pending is ignored. *)
Definition clearTimeout (id : nat) (st : State) : State :=
  {| component := component st; now := now st;
     timers := filter (fun t => timerId t ≠ id) (timers st);
     nextTimerId := nextTimerId st; cleanup := cleanup st |}.

(** The effect body: arm the timer and keep its cleanup function. *)
Definition debounceEffect (st : State) : State :=
  let '(timer, st) := setTimeout (PatientList.searchInput (component st)) delay st in
  {| component := component st; now := now st; timers := timers st;
     nextTimerId := nextTimerId st; cleanup := Some timer |}.

(** The cleanup function returned by the previous run of the effect. *)
Definition runCleanup (st : State) : State :=
  match cleanup st with
  | Some timer => clearTimeout timer st
  | None => st
  end.

(** The timer callback. *)
Definition callback (t : Timer) (s : PatientList.State) : PatientList.State :=
  PatientList.setCurrentPage 1 (PatientList.setSearchTerm (captured t) s).

Definition withComponent (s : PatientList.State) (st : State) : State :=
  {| component := s; now := now st; timers := timers st;
     nextTimerId := nextTimerId st; cleanup := cleanup st |}.

(** A server that settles [getPatients] as [r]. *)
Definition answering (r : Api.settled Api.PatientsResponse) : Api.server unit :=
  Api.inOrder (fun R c w =>
    match c in Api.call R return Api.settled R * unit with
    | Api.getPatients _ _ _ => (r, w)
    | _ => (Api.Rejected {| Api.message := None |}, w)
    end).

Inductive event :=
| Typed (value : string)                          (* onChange of the search box *)
| Elapse (ms : Z)                                 (* time passes *)
| Fire (id : nat)                                 (* the browser runs a due timer *)
| Fetched (r : Api.settled Api.PatientsResponse)  (* a [fetchPatients] run settles *)
| PreviousPage                                    (* click on Previous *)
| NextPage.                                       (* click on Next *)

(** One step; [None] when the event cannot happen in this state.  A state
    update to an equal value causes no render, and a render re-runs the
    effect only when [searchInput] differs from the previous render's. *)
Definition step (st : State) (e : event) : option State :=
  match e with
  | Typed value =>
      if String.eqb value (PatientList.searchInput (component st)) then Some st
      else Some (debounceEffect
                   (runCleanup (withComponent (PatientList.handleSearch value (component st)) st)))
  | Elapse ms =>
      if 0 <=? ms
      then Some {| component := component st; now := now st + ms; timers := timers st;
                   nextTimerId := nextTimerId st; cleanup := cleanup st |}
      else None
  | Fire id =>
      match find (fun t => Nat.eqb (timerId t) id) (timers st) with
      | Some t =>
          if due t <=? now st
          then Some (withComponent (callback t (component st)) (clearTimeout id st))
          else None
      | None => None
      end
  | Fetched r =>
      Some (withComponent
              (Api.result (answering r) tt (PatientList.fetchPatients (component st))) st)
  | PreviousPage => Some (withComponent (PatientList.handlePreviousPage (component st)) st)
  | NextPage => Some (withComponent (PatientList.handleNextPage (component st)) st)
  end.

(** The component after its first render: the effect has run once. *)
Definition mount : State :=
  debounceEffect {| component := PatientList.initial; now := 0; timers := [];
                    nextTimerId := 1; cleanup := None |}.

(** The instant [searchInput] last changed, carried along a step: a [Typed]
    event with a new value moves it to the present. *)
Definition lastChange (st : State) (e : event) (t : Z) : Z :=
  match e with
  | Typed value =>
      if String.eqb value (PatientList.searchInput (component st)) then t else now st
  | _ => t
  end.

(** Run a sequence of events, together with the instant of the last change
    of [searchInput]. *)
Fixpoint exec (st : State) (t : Z) (es : list event) : option (State * Z) :=
  match es with
  | [] => Some (st, t)
  | e :: es' =>
      match step st e with
      | Some st' => exec st' (lastChange st e t) es'
      | None => None
      end
  end.

(** What holds of the timer table after every step: nothing is pending, or
    exactly one timer is, armed at instant [t] for the present [searchInput]
    and held by the effect's cleanup. *)
Definition armed (st : State) (t : Z) : Prop :=
  t <= now st /\
  (timers st = [] \/
   exists id : nat,
     timers st = [{| timerId := id; due := t + delay;
                     captured := PatientList.searchInput (component st) |}] /\
     cleanup st = Some id).

End Debounce.

(* ===================================================================== *)
(** ** Sample servers and data *)
(* ===================================================================== *)

Module Sample.

Import Entity.

Definition networkError : Api.JsError := {| Api.message := Some "Network Error" |}.

(** Every call is rejected with the same error. *)
Definition rejecting (err : Api.JsError) : Api.server unit :=
  Api.inOrder (fun _ _ w => (Api.Rejected err, w)).

(** V8's [TypeError] for reading [page] of [undefined]. *)
Definition undefinedPage : Api.JsError :=
  {| Api.message := Some "Cannot read properties of undefined (reading 'page')" |}.

(** Page 2 of 5, no patients on it. *)
Definition secondPage : Api.ServerPagination :=
  {| Api.page := 2; Api.totalPages := 5; Api.total := 42; Api.limit := 10 |}.

Definition secondPageResponse : Api.PatientsResponse :=
  {| Api.patients := Some []; Api.pagination := Some secondPage;
     Api.pageReadError := undefinedPage |}.

Definition pageTwoOfFive : Api.server unit :=
  Api.inOrder (fun R c w =>
    match c in Api.call R return Api.settled R * unit with
    | Api.getPatients _ _ _ => (Api.Resolved secondPageResponse, w)
    | _ => (Api.Rejected networkError, w)
    end).

Definition alice : Patient :=
  {| p_id := "patient-001"; p_patientId := "P-2024-001"; p_name := "Alice Example";
     p_dateOfBirth := "1985-03-15"; p_gender := "Female";
     p_email := "alice@example.org"; p_phone := "555-0100";
     p_address := "1 Main Street";
     p_walletAddress := "0x742d35Cc6634C0532925a3b844Bc9e7595f0bEb";
     p_createdAt := "2024-01-15T10:30:00Z" |}.

Definition labReport : MedicalRecord :=
  {| r_id := "rec-1"; r_type := "Lab Report"; r_title := "Blood panel";
     r_date := "2024-02-01T09:00:00Z"; r_description := "Routine blood panel";
     r_doctor := "Dr. Example"; r_hospital := "General Hospital";
     r_status := "verified"; r_blockchainHash := "0xabc" |}.

(** A PatientList that has shown page 2 of 5 with one patient on it. *)
Definition listOnSecondPage : PatientList.State :=
  {| PatientList.patients := [alice]; PatientList.loading := false;
     PatientList.error := None; PatientList.searchTerm := "";
     PatientList.searchInput := ""; PatientList.currentPage := 2;
     PatientList.pagination :=
       Some {| PatientList.reported := secondPage;
               PatientList.hasNextPage := true;
               PatientList.hasPrevPage := true |} |}.

(** A records endpoint that answers with a bare array. *)
Definition bareArray : Api.server unit :=
  Api.inOrder (fun R c w =>
    match c in Api.call R return Api.settled R * unit with
    | Api.getPatient _ => (Api.Resolved (Some alice), w)
    | Api.getPatientRecords _ => (Api.Resolved (Api.Direct [labReport]), w)
    | _ => (Api.Rejected networkError, w)
    end).

(** Typing "a", a pause of 200 ms, typing "ab", a pause of 500 ms. *)
Definition typing : list Debounce.event :=
  [Debounce.Typed "a"; Debounce.Elapse 200; Debounce.Typed "ab"; Debounce.Elapse 500].

End Sample.

(* ===================================================================== *)
(** ** TransactionCard *)
(* ===================================================================== *)

Module TransactionCard.

Import Entity.

(** [s.replace(pattern, replacement)] for a pattern of one code unit and a
    replacement without [$]: the first occurrence is replaced, the rest of
    the string is kept. *)
Fixpoint replace (pattern : Ascii.ascii) (replacement : string) (s : string) : string :=
  match s with
  | EmptyString => EmptyString
  | String c s' =>
      if Ascii.eqb c pattern then replacement +:+ s'
      else String c (replace pattern replacement s')
  end.

(** Whether code unit [c] occurs in [s]. *)
Fixpoint occurs (c : Ascii.ascii) (s : string) : bool :=
  match s with
  | EmptyString => false
  | String c' s' => Ascii.eqb c' c || occurs c s'
  end.

(** The text of the type badge: [transaction.type.replace("_", " ")]. *)
Definition typeLabel (transaction : Transaction) : string :=
  replace "_"%char " " (t_type transaction).

Inductive Icon := Checkmark | Circle.

(** [getStatusIcon] *)
Definition getStatusIcon (status : string) : Icon :=
  if String.eqb status "confirmed" then Checkmark else Circle.

End TransactionCard.

(* ===================================================================== *)
(** ** More sample servers and data *)
(* ===================================================================== *)

Module Fixture.

Import Entity.

Definition consentA : Consent :=
  {| c_id := "consent-001"; c_patientId := "patient-001";
     c_purpose := "Research Study Participation"; c_status := "pending";
     c_walletAddress := "0x742d35Cc6634C0532925a3b844Bc9e7595f0bEb";
     c_createdAt := "2024-01-15T10:30:00Z"; c_blockchainTxHash := None |}.

Definition transfer : Transaction :=
  {| t_id := "tx-001"; t_type := "consent_creation"; t_amount := "0.05";
     t_currency := "ETH"; t_status := "confirmed";
     t_from := "0x742d35Cc6634C0532925a3b844Bc9e7595f0bEb";
     t_to := "0x1111111111111111111111111111111111111111";
     t_blockNumber := 18500000; t_timestamp := "2024-01-15T10:30:00Z";
     t_gasUsed := "21000"; t_blockchainTxHash := "0xabc" |}.

Definition counters : Stats :=
  {| totalPatients := 100; totalRecords := 250; totalConsents := 40;
     activeConsents := 30; pendingConsents := 10; totalTransactions := 75 |}.

Definition wallet : string := "0x742d35Cc6634C0532925a3b844Bc9e7595f0bEb".

(** Every call resolves, with one entity of each kind. *)
Definition resolving : Api.server unit :=
  Api.inOrder (fun R c w =>
    match c in Api.call R return Api.settled R * unit with
    | Api.getPatients _ _ _ => (Api.Resolved Sample.secondPageResponse, w)
    | Api.getPatient _ => (Api.Resolved (Some Sample.alice), w)
    | Api.getPatientRecords _ =>
        (Api.Resolved (Api.Wrapped (Some [Sample.labReport])), w)
    | Api.getConsents _ _ => (Api.Resolved {| Api.consents := Some [consentA] |}, w)
    | Api.createConsent _ => (Api.Resolved tt, w)
    | Api.updateConsent _ _ => (Api.Resolved tt, w)
    | Api.getTransactions _ _ =>
        (Api.Resolved {| Api.transactions := Some [transfer] |}, w)
    | Api.getStats => (Api.Resolved (Some counters), w)
    | Api.signMessage _ => (Api.Resolved "0xsigned", w)
    | Api.alert _ => (Api.Resolved tt, w)
    end).

(** The consents endpoint answers with an empty array. *)
Definition noConsents : Api.server unit :=
  Api.inOrder (fun R c w =>
    match c in Api.call R return Api.settled R * unit with
    | Api.getConsents _ _ => (Api.Resolved {| Api.consents := Some [] |}, w)
    | c' => Api.respond resolving _ c' w
    end).

(** The patients endpoint leaves [pagination] out. *)
Definition patientsOnly : Api.PatientsResponse :=
  {| Api.patients := Some [Sample.alice]; Api.pagination := None;
     Api.pageReadError := Sample.undefinedPage |}.

(** The same with [pagination: null], and V8's wording for it. *)
Definition nullPage : Api.JsError :=
  {| Api.message := Some "Cannot read properties of null (reading 'page')" |}.

Definition patientsNullPagination : Api.PatientsResponse :=
  {| Api.patients := Some [Sample.alice]; Api.pagination := None;
     Api.pageReadError := nullPage |}.

Definition noPagination : Api.server unit :=
  Api.inOrder (fun R c w =>
    match c in Api.call R return Api.settled R * unit with
    | Api.getPatients _ _ _ => (Api.Resolved patientsOnly, w)
    | c' => Api.respond resolving _ c' w
    end).

(** The patient and statistics endpoints resolve to [null]. *)
Definition nullBodies : Api.server unit :=
  Api.inOrder (fun R c w =>
    match c in Api.call R return Api.settled R * unit with
    | Api.getPatient _ => (Api.Resolved None, w)
    | Api.getStats => (Api.Resolved None, w)
    | c' => Api.respond resolving _ c' w
    end).

(** The wallet refuses to sign; everything else resolves. *)
Definition refusingWallet : Api.server unit :=
  Api.inOrder (fun R c w =>
    match c in Api.call R return Api.settled R * unit with
    | Api.signMessage _ =>
        (Api.Rejected {| Api.message := Some "User denied message signature" |}, w)
    | c' => Api.respond resolving _ c' w
    end).

(** A consent form that has been filled in. *)
Definition filledForm : ConsentManagement.State :=
  {| ConsentManagement.consents := []; ConsentManagement.loading := false;
     ConsentManagement.error := None; ConsentManagement.filterStatus := "pending";
     ConsentManagement.showCreateForm := true;
     ConsentManagement.formData_patientId := "patient-001";
     ConsentManagement.formData_purpose := "Research Study Participation" |}.

(** Both requests of PatientDetail are rejected, the records request
    first. *)
Definition patientGone : Api.JsError := {| Api.message := Some "Patient not found" |}.
Definition recordsDown : Api.JsError := {| Api.message := Some "Records unavailable" |}.

Definition recordsFailFirst : Api.server unit :=
  Api.Server
    (fun R c w =>
       match c in Api.call R return Api.settled R * unit with
       | Api.getPatient _ => (Api.Rejected patientGone, w)
       | Api.getPatientRecords _ => (Api.Rejected recordsDown, w)
       | c' => Api.respond resolving _ c' w
       end)
    (fun _ => true).

(** A list on the last page that a double still counts exactly past. *)
Definition hugePage : Api.ServerPagination :=
  {| Api.page := 9007199254740992; Api.totalPages := 9007199254740994;
     Api.total := 0; Api.limit := 10 |}.

Definition hugePageServer : Api.server unit :=
  Api.inOrder (fun R c w =>
    match c in Api.call R return Api.settled R * unit with
    | Api.getPatients _ _ _ =>
        (Api.Resolved {| Api.patients := Some []; Api.pagination := Some hugePage;
                         Api.pageReadError := Sample.undefinedPage |}, w)
    | c' => Api.respond resolving _ c' w
    end).

End Fixture.

(* ===================================================================== *)
(** ** Facts about the string primitives *)
(* ===================================================================== *)

Section JsStringFacts.

Import JsString.

Lemma app_cons (c : Ascii.ascii) (s t : string) :
  String c s +:+ t = String c (s +:+ t).
Proof. reflexivity. Qed.

Lemma take_drop_id (n : nat) (s : string) : take n s +:+ drop n s = s.
Proof.
  revert s; induction n as [|n IH]; intros [|c s]; simpl; try reflexivity.
  rewrite app_cons; f_equal; apply IH.
Qed.

Lemma length_take (n : nat) (s : string) :
  String.length (take n s) = Nat.min n (String.length s).
Proof.
  revert s; induction n as [|n IH]; intros [|c s]; simpl; try reflexivity.
  now rewrite IH.
Qed.

Lemma length_drop (n : nat) (s : string) :
  String.length (drop n s) = (String.length s - n)%nat.
Proof.
  revert s; induction n as [|n IH]; intros [|c s]; simpl; try reflexivity.
  apply IH.
Qed.

Lemma length_app (s t : string) :
  String.length (s +:+ t) = (String.length s + String.length t)%nat.
Proof.
  induction s as [|c s IH]; [reflexivity|].
  rewrite app_cons; simpl; f_equal; apply IH.
Qed.

Lemma take_all (n : nat) (s : string) :
  (String.length s <= n)%nat -> take n s = s.
Proof.
  revert s; induction n as [|n IH]; intros [|c s]; simpl; intros H;
    try reflexivity; try lia.
  f_equal; apply IH; lia.
Qed.

(** [s.slice(0, n)] for [0 <= n] is the prefix of length [min n len]. *)
Lemma slice_prefix (s : string) (n : Z) :
  0 <= n -> slice s 0 (Some n) = take (Z.to_nat n) s.
Proof.
  intros Hn. unfold slice, clamp, len.
  assert (H0 : (0 <? 0) = false) by reflexivity. rewrite H0.
  destruct (n <? 0) eqn:E; [apply Z.ltb_lt in E; lia|].
  rewrite (Z.min_l 0) by lia. simpl drop.
  destruct (Z.le_gt_cases n (Z.of_nat (String.length s))) as [Hle|Hgt].
  - rewrite Z.min_l by lia. f_equal. lia.
  - rewrite Z.min_r by lia.
    rewrite !take_all; try reflexivity; lia.
Qed.

(** [s.slice(-k)] for [0 < k] is the suffix of length [min k len]. *)
Lemma slice_suffix (s : string) (k : Z) :
  0 < k ->
  slice s (- k) None = drop (String.length s - Z.to_nat k) s.
Proof.
  intros Hk. unfold slice, clamp, len.
  destruct (- k <? 0) eqn:E; [|apply Z.ltb_ge in E; lia].
  set (n := String.length s).
  assert (Hfrom : Z.to_nat (Z.max (Z.of_nat n + - k) 0) = (n - Z.to_nat k)%nat) by lia.
  rewrite Hfrom. apply take_all. rewrite length_drop. lia.
Qed.

End JsStringFacts.

(* ===================================================================== *)
(** ** Text helpers *)
(* ===================================================================== *)

Section FormatFacts.

Import JsString Format.

(** The two examples of the function's documentation. *)
Example truncateDescription_doc_long :
  truncateDescription "This is a very long medical record description..." 20
  = "This is a very long ...".
Proof. reflexivity. Qed.

Example truncateDescription_doc_short :
  truncateDescription "Short text" 20 = "Short text".
Proof. reflexivity. Qed.

(** With a negative [maxLength], [slice(0, maxLength)] counts from the end of
    the text: the result keeps all but the last [-maxLength] code units. *)
Lemma truncateDescription_negative (text : string) (maxLength : Z) :
  maxLength < 0 ->
  truncateDescription text maxLength
  = take (String.length text - Z.to_nat (- maxLength)) text +:+ "...".
Proof.
  intros Hneg. unfold truncateDescription, slice, clamp, len.
  destruct (Z.leb_spec (Z.of_nat (String.length text)) maxLength) as [H|H]; [lia|].
  assert (H0 : (0 <? 0) = false) by reflexivity. rewrite H0.
  destruct (Z.ltb_spec maxLength 0) as [_|H']; [|lia].
  rewrite (Z.min_l 0) by lia. simpl drop.
  do 2 f_equal. lia.
Qed.

(** C3, as stated, fails for a negative [maxLength]: the text "abc" is longer
    than -1, and the result is "ab...", which is not a prefix of "abc" of
    length [maxLength] (read as no characters at all) followed by "...". *)
Lemma truncateDescription_negative_maxLength :
  truncateDescription "abc" (-1) = "ab..." /\
  ~ (exists p rest : string,
        "abc" = p +:+ rest /\ String.length p = Z.to_nat (-1) /\
        truncateDescription "abc" (-1) = p +:+ "...").
Proof.
  split; [reflexivity|].
  intros (p & rest & _ & Hlen & Hres).
  destruct p as [|c p]; [discriminate Hres | discriminate Hlen].
Qed.

(** C3 (amended): for every text and every [maxLength >= 0],
    [truncateDescription] returns the text unchanged when its length is at
    most [maxLength], and otherwise the prefix of the text of length
    [maxLength] followed by "...". *)
Theorem truncateDescription_spec (text : string) (maxLength : Z) :
  0 <= maxLength ->
  (len text <= maxLength -> truncateDescription text maxLength = text) /\
  (maxLength < len text ->
   exists p rest : string,
     text = p +:+ rest /\ len p = maxLength /\
     truncateDescription text maxLength = p +:+ "...").
Proof.
  intros Hnn. unfold truncateDescription. split; intros H.
  - destruct (Z.leb_spec (len text) maxLength); [reflexivity | lia].
  - destruct (Z.leb_spec (len text) maxLength); [lia|].
    exists (take (Z.to_nat maxLength) text), (drop (Z.to_nat maxLength) text).
    split; [symmetry; apply take_drop_id|].
    split; [|now rewrite slice_prefix].
    unfold len in *. rewrite length_take. lia.
Qed.

Lemma truncateDescription_spec_witness :
  0 <= 5 /\
  (len "Short text" <= 5 -> truncateDescription "Short text" 5 = "Short text") /\
  (5 < len "Short text" ->
   exists p rest : string,
     "Short text" = p +:+ rest /\ len p = 5 /\
     truncateDescription "Short text" 5 = p +:+ "...").
Proof.
  split; [lia|]. apply (truncateDescription_spec "Short text" 5). lia.
Defined.

(** The function on the address of its documentation: eight code units, the
    dots, six code units. *)
Example formatWalletAddress_doc :
  formatWalletAddress (Some "0x742d35Cc6634C0532925a3b844Bc9e7595f0bEb")
  = "0x742d35...5f0bEb".
Proof. reflexivity. Qed.

Example formatWalletAddress_null : formatWalletAddress None = "".
Proof. reflexivity. Qed.

Lemma formatWalletAddress_nonempty (address : string) :
  address <> "" ->
  formatWalletAddress (Some address)
  = take 8 address +:+ "..." +:+ drop (String.length address - 6) address.
Proof.
  intros Hne. destruct address as [|c a]; [congruence|].
  unfold formatWalletAddress.
  rewrite slice_prefix by lia.
  change (-6) with (- (6)). rewrite slice_suffix by lia.
  reflexivity.
Qed.

Lemma formatWalletAddress_length (address : string) :
  address <> "" ->
  String.length (formatWalletAddress (Some address))
  = (Nat.min 8 (String.length address) + 3 + Nat.min 6 (String.length address))%nat.
Proof.
  intros Hne. rewrite formatWalletAddress_nonempty by assumption.
  rewrite !length_app, length_take, length_drop. simpl String.length. lia.
Qed.

(** C4, as stated, fails on a short address: "abc" is rendered "abc...abc",
    nine code units for an input of three. *)
Lemma formatWalletAddress_lengthens_short_address :
  formatWalletAddress (Some "abc") = "abc...abc" /\
  ~ (String.length (formatWalletAddress (Some "abc")) <= String.length "abc")%nat.
Proof. split; [reflexivity | simpl; lia]. Qed.

(** C4 (amended): for every non-empty address the result is the first 8 code
    units of the address (all of it when shorter), then "...", then its last 6
    code units (all of it when shorter); the result is no longer than the
    address exactly when the address has at least 17 code units. *)
Theorem formatWalletAddress_spec (address : string) :
  address <> "" ->
  (exists head rest1 rest2 tail : string,
      address = head +:+ rest1 /\ address = rest2 +:+ tail /\
      String.length head = Nat.min 8 (String.length address) /\
      String.length tail = Nat.min 6 (String.length address) /\
      formatWalletAddress (Some address) = head +:+ "..." +:+ tail) /\
  ((String.length (formatWalletAddress (Some address)) <= String.length address)%nat
   <-> (17 <= String.length address)%nat).
Proof.
  intros Hne. split.
  - exists (take 8 address), (drop 8 address),
           (take (String.length address - 6) address),
           (drop (String.length address - 6) address).
    repeat split.
    + symmetry; apply take_drop_id.
    + symmetry; apply take_drop_id.
    + apply length_take.
    + rewrite length_drop. lia.
    + now apply formatWalletAddress_nonempty.
  - rewrite formatWalletAddress_length by assumption. lia.
Qed.

Lemma formatWalletAddress_spec_witness :
  "0x742d35Cc6634C0532925a3b844Bc9e7595f0bEb" <> "" /\
  (String.length
     (formatWalletAddress (Some "0x742d35Cc6634C0532925a3b844Bc9e7595f0bEb"))
   <= String.length "0x742d35Cc6634C0532925a3b844Bc9e7595f0bEb")%nat.
Proof.
  split; [discriminate|].
  apply (formatWalletAddress_spec "0x742d35Cc6634C0532925a3b844Bc9e7595f0bEb");
    [discriminate | simpl; lia].
Defined.

End FormatFacts.

(* ===================================================================== *)
(** ** formatDate *)
(* ===================================================================== *)

Section FormatDateFacts.

Import Format.

Example civil_epoch : JsDate.civil_from_days 0 = (1970, 1, 1).
Proof. reflexivity. Qed.

Example parse_timestamp : JsDate.parse 0 "2024-01-15T10:30:00Z" = Some 1705314600000.
Proof. reflexivity. Qed.

Example formatDate_timestamp_utc :
  formatDate 0 "2024-01-15T10:30:00Z" = Some "Jan 15, 2024".
Proof. vm_compute. reflexivity. Qed.

Example formatDate_year_end :
  formatDate 600 "2024-12-31T23:30:00.000Z" = Some "Jan 1, 2025".
Proof. vm_compute. reflexivity. Qed.

Example formatDate_local_form :
  formatDate (-480) "2024-02-29T23:30:00" = Some "Feb 29, 2024".
Proof. vm_compute. reflexivity. Qed.

(** C8: the documented example, [formatDate("1985-03-15")], is "Mar 15, 1985"
    on a host in UTC and "Mar 14, 1985" on a host five hours west of it: the
    argument alone does not determine the output. *)
Theorem formatDate_depends_on_host_time_zone :
  formatDate 0 "1985-03-15" = Some "Mar 15, 1985" /\
  formatDate (-300) "1985-03-15" = Some "Mar 14, 1985".
Proof. split; vm_compute; reflexivity. Qed.

(** A date-only string is read as midnight UTC whatever the host zone, so
    every host west of UTC renders the day before. *)
Lemma parse_date_only_ignores_zone (off1 off2 : Z) :
  JsDate.parse off1 "1985-03-15" = JsDate.parse off2 "1985-03-15".
Proof. reflexivity. Qed.

End FormatDateFacts.

(* ===================================================================== *)
(** ** The expand/collapse toggle *)
(* ===================================================================== *)

Section ExpandFacts.

Import Expand.

Lemma expanded_toggle_same (r : string) (m : gmap string bool) :
  expanded (toggleExpand r m) r = negb (expanded m r).
Proof. unfold toggleExpand, expanded at 1. now rewrite lookup_insert_eq. Qed.

Lemma lookup_toggle_other (r r' : string) (m : gmap string bool) :
  r' <> r -> toggleExpand r m !! r' = m !! r'.
Proof. intros Hne. unfold toggleExpand. now rewrite lookup_insert_ne. Qed.

Lemma expanded_toggle_other (r r' : string) (m : gmap string bool) :
  r' <> r -> expanded (toggleExpand r m) r' = expanded m r'.
Proof. intros Hne. unfold expanded. now rewrite lookup_toggle_other. Qed.

(** Toggling twice need not give the object back: a key that was absent is
    present afterwards, holding [false]. *)
Example toggle_twice_adds_key :
  toggleExpand "rec-1" (toggleExpand "rec-1" ∅) = {[ "rec-1" := false ]}.
Proof.
  apply map_eq; intros k. unfold toggleExpand, expanded.
  destruct (decide (k = "rec-1")) as [->|Hne].
  - rewrite !lookup_insert_eq, lookup_singleton_eq. reflexivity.
  - rewrite !lookup_insert_ne, lookup_singleton_ne by congruence. reflexivity.
Qed.

(** C5: [toggleExpand r] negates what key [r] reads as, leaves every other
    key's lookup as it was, and applied twice gives an object in which every
    record id reads as expanded or collapsed exactly as in the original, so
    that every card shows the same description and button label. *)
Theorem toggleExpand_local_involution (r : string) (m : gmap string bool) :
  expanded (toggleExpand r m) r = negb (expanded m r) /\
  (forall r' : string, r' <> r -> toggleExpand r m !! r' = m !! r') /\
  (forall r' : string,
      expanded (toggleExpand r (toggleExpand r m)) r' = expanded m r') /\
  (forall r' description : string,
      shownDescription (toggleExpand r (toggleExpand r m)) r' description
      = shownDescription m r' description /\
      expandButton (toggleExpand r (toggleExpand r m)) r' description
      = expandButton m r' description).
Proof.
  assert (Htwice : forall r' : string,
             expanded (toggleExpand r (toggleExpand r m)) r' = expanded m r').
  { intros r'. destruct (decide (r' = r)) as [->|Hne].
    - rewrite !expanded_toggle_same. apply negb_involutive.
    - now rewrite !expanded_toggle_other. }
  split; [apply expanded_toggle_same|].
  split; [intros r' Hne; now apply lookup_toggle_other|].
  split; [exact Htwice|].
  intros r' description. unfold shownDescription, expandButton.
  now rewrite Htwice.
Qed.

Lemma toggleExpand_local_involution_witness :
  "rec-2" <> "rec-1" /\
  toggleExpand "rec-1" {[ "rec-2" := true ]} !! "rec-2"
  = ({[ "rec-2" := true ]} : gmap string bool) !! "rec-2".
Proof.
  split; [discriminate|].
  apply (toggleExpand_local_involution "rec-1" {[ "rec-2" := true ]}).
  discriminate.
Defined.

End ExpandFacts.

(* ===================================================================== *)
(** ** Running async functions *)
(* ===================================================================== *)

Section RunFacts.

Import Api.

Context {W : Type} (srv : server W).

Lemma run_Await {A R} (w w1 : W) (c : call R) (k : settled R -> prog A) (r : settled R) :
  srv R c w = (r, w1) ->
  run srv w (Await c k)
  = (fst (fst (run srv w1 (k r))), snd (fst (run srv w1 (k r))),
     Request c :: snd (run srv w1 (k r))).
Proof.
  intros H. simpl. rewrite H.
  destruct (run srv w1 (k r)) as [[a w2] tr]. reflexivity.
Qed.

Lemma run_AwaitAll {A R1 R2} (w w1 w2 : W) (c1 : call R1) (c2 : call R2)
    (k : settled (R1 * R2) -> prog A) (r1 : settled R1) (r2 : settled R2) :
  srv R1 c1 w = (r1, w1) ->
  srv R2 c2 w1 = (r2, w2) ->
  run srv w (AwaitAll c1 c2 k)
  = (fst (fst (run srv w2 (k (promise_all (secondSettlesFirst srv w) r1 r2)))),
     snd (fst (run srv w2 (k (promise_all (secondSettlesFirst srv w) r1 r2)))),
     Request c1 :: Request c2
     :: snd (run srv w2 (k (promise_all (secondSettlesFirst srv w) r1 r2)))).
Proof.
  intros H1 H2. simpl. rewrite H1, H2.
  destruct (run srv w2 (k (promise_all (secondSettlesFirst srv w) r1 r2)))
    as [[a w3] tr]. reflexivity.
Qed.

End RunFacts.

(** [err.message || fallback]: the message when it is a non-empty string, the
    fallback when the error has no message or an empty one. *)
Lemma message_or_cases (err : Api.JsError) (fallback : string) :
  (forall m : string, Api.message err = Some m -> m <> "" ->
                      Api.message_or err fallback = m) /\
  (Api.message err = None -> Api.message_or err fallback = fallback) /\
  (Api.message err = Some "" -> Api.message_or err fallback = fallback).
Proof.
  unfold Api.message_or, JsString.or_else. repeat split.
  - intros m -> Hne. destruct m; congruence.
  - now intros ->.
  - now intros ->.
Qed.

(** A stored message is truthy as soon as the fallback is. *)
Lemma message_or_truthy (err : Api.JsError) (fallback : string) :
  fallback <> "" -> JsString.truthy (Some (Api.message_or err fallback)) = true.
Proof.
  intros Hne. unfold Api.message_or, JsString.or_else.
  destruct (Api.message err) as [[|c m]|]; simpl; try reflexivity;
    destruct fallback; congruence.
Qed.

(** Name the stored message and keep only the fact that it is truthy. *)
Ltac stored_message msg :=
  match goal with
  | msg := Api.message_or ?err ?fallback |- _ =>
      let Hmsg := fresh "Hmsg" in
      assert (Hmsg : JsString.truthy (Some msg) = true)
        by (apply message_or_truthy; discriminate);
      clearbody msg
  end.

(* ===================================================================== *)
(** ** PatientList: pagination bookkeeping *)
(* ===================================================================== *)

Section PatientListFacts.

Import Api PatientList.

Context {W : Type} (srv : server W).

(** The state after a fetch whose response carries a [pagination] object. *)
Lemma fetchPatients_resolved (w w' : W) (s : State)
    (response : PatientsResponse) (pg : ServerPagination) :
  srv _ (getPatients (currentPage s) 10 (searchTerm s)) w = (Resolved response, w') ->
  Api.pagination response = Some pg ->
  run srv w (fetchPatients s)
  = ({| patients := default [] (Api.patients response);
        loading := false; error := None;
        searchTerm := searchTerm s; searchInput := searchInput s;
        currentPage := page pg;
        pagination := Some {| reported := pg;
                              hasNextPage := page pg <? totalPages pg;
                              hasPrevPage := 1 <? page pg |} |},
     w', [Request (getPatients (currentPage s) 10 (searchTerm s))]).
Proof.
  intros Hsrv Hpg. unfold fetchPatients.
  erewrite run_Await by exact Hsrv.
  simpl. rewrite Hpg. reflexivity.
Qed.

(** The state after a fetch that is rejected. *)
Lemma fetchPatients_rejected (w w' : W) (s : State) (err : JsError) :
  srv _ (getPatients (currentPage s) 10 (searchTerm s)) w = (Rejected err, w') ->
  run srv w (fetchPatients s)
  = ({| patients := []; loading := false;
        error := Some (message_or err "Failed to fetch patients");
        searchTerm := searchTerm s; searchInput := searchInput s;
        currentPage := currentPage s; pagination := pagination s |},
     w', [Request (getPatients (currentPage s) 10 (searchTerm s))]).
Proof.
  intros Hsrv. unfold fetchPatients.
  erewrite run_Await by exact Hsrv. reflexivity.
Qed.

(** C1: after a patient fetch that succeeds, [currentPage] is the page the
    server reported, [hasNextPage] holds exactly when that page is below the
    reported [totalPages], and [hasPrevPage] exactly when it is above 1. *)
Theorem fetchPatients_pagination_flags (w w' : W) (s : State)
    (response : PatientsResponse) (pg : ServerPagination) :
  srv _ (getPatients (currentPage s) 10 (searchTerm s)) w = (Resolved response, w') ->
  Api.pagination response = Some pg ->
  let s' := result srv w (fetchPatients s) in
  currentPage s' = page pg /\
  exists stored : Pagination,
    pagination s' = Some stored /\
    reported stored = pg /\
    (hasNextPage stored = true <-> page pg < totalPages pg) /\
    (hasPrevPage stored = true <-> 1 < page pg).
Proof.
  intros Hsrv Hpg s'. subst s'. unfold result.
  rewrite (fetchPatients_resolved _ _ _ _ _ Hsrv Hpg). simpl.
  split; [reflexivity|].
  eexists; split; [reflexivity|]. simpl.
  split; [reflexivity|]. split; apply Z.ltb_lt.
Qed.

End PatientListFacts.

Lemma fetchPatients_pagination_flags_witness :
  PatientList.currentPage
    (Api.result Sample.pageTwoOfFive tt (PatientList.fetchPatients PatientList.initial)) = 2.
Proof.
  exact (proj1 (fetchPatients_pagination_flags Sample.pageTwoOfFive tt tt PatientList.initial
                  Sample.secondPageResponse Sample.secondPage eq_refl eq_refl)).
Defined.

(* ===================================================================== *)
(** ** The failure path of every fetch *)
(* ===================================================================== *)

Section FailureFacts.

Import Api.

Context {W : Type} (srv : server W).

Lemma fetchConsents_rejected (w w' : W) (s : ConsentManagement.State) (err : JsError) :
  srv _ (ConsentManagement.consentsRequest s) w = (Rejected err, w') ->
  run srv w (ConsentManagement.fetchConsents s)
  = (ConsentManagement.setLoading false
       (ConsentManagement.setConsents []
          (ConsentManagement.setError (Some (message_or err "Failed to fetch consents")) s)),
     w', [Request (ConsentManagement.consentsRequest s)]).
Proof.
  intros Hsrv. unfold ConsentManagement.fetchConsents.
  erewrite run_Await by exact Hsrv. reflexivity.
Qed.

Lemma fetchTransactions_rejected (w w' : W) (s : TransactionHistory.State) (err : JsError) :
  srv _ (getTransactions None 20) w = (Rejected err, w') ->
  run srv w (TransactionHistory.fetchTransactions s)
  = (TransactionHistory.setLoading false
       (TransactionHistory.setTransactions []
          (TransactionHistory.setError
             (Some (message_or err "Failed to fetch transactions")) s)),
     w', [Request (getTransactions None 20)]).
Proof.
  intros Hsrv. unfold TransactionHistory.fetchTransactions.
  erewrite run_Await by exact Hsrv. reflexivity.
Qed.

Lemma fetchStats_rejected (w w' : W) (s : StatsDashboard.State) (err : JsError) :
  srv _ getStats w = (Rejected err, w') ->
  run srv w (StatsDashboard.fetchStats s)
  = (StatsDashboard.setLoading false
       (StatsDashboard.setStats None
          (StatsDashboard.setError (Some (message_or err "Failed to fetch statistics")) s)),
     w', [Request getStats]).
Proof.
  intros Hsrv. unfold StatsDashboard.fetchStats.
  erewrite run_Await by exact Hsrv. reflexivity.
Qed.

Lemma fetchPatientData_rejected (w w1 w2 : W) (patientId : string)
    (s : PatientDetail.State) (r1 : settled (option Entity.Patient))
    (r2 : settled RecordsResponse) (err : JsError) :
  srv _ (getPatient patientId) w = (r1, w1) ->
  srv _ (getPatientRecords patientId) w1 = (r2, w2) ->
  promise_all (secondSettlesFirst srv w) r1 r2 = Rejected err ->
  run srv w (PatientDetail.fetchPatientData patientId s)
  = ({| PatientDetail.patient := None; PatientDetail.records := [];
        PatientDetail.loading := false;
        PatientDetail.error := Some (message_or err "Failed to fetch patient data") |},
     w2, [Request (getPatient patientId); Request (getPatientRecords patientId)]).
Proof.
  intros H1 H2 Hall. unfold PatientDetail.fetchPatientData.
  erewrite run_AwaitAll by eassumption. rewrite Hall. reflexivity.
Qed.

End FailureFacts.

Section FailurePolicy.

Import Api.

(** C6, as stated, fails for PatientList: a list that has shown page 2 of 5
    and whose next fetch is rejected empties its patients but keeps the
    pagination object of the earlier response. *)
Lemma fetchPatients_failure_keeps_pagination :
  let s' := result (Sample.rejecting Sample.networkError) tt
              (PatientList.fetchPatients Sample.listOnSecondPage) in
  PatientList.patients s' = [] /\
  PatientList.error s' = Some "Network Error" /\
  PatientList.pagination s' = PatientList.pagination Sample.listOnSecondPage /\
  PatientList.pagination s' <> None.
Proof. repeat split; discriminate. Qed.

(** C6 (amended): when the API call of a fetch is rejected, each of the five
    components stores the error's message, or its fixed fallback when the
    error has none, empties the entity state it holds (lists to empty, the
    patient and the statistics to null), sets loading to false and renders the
    stored message in its error box; PatientList leaves its pagination object
    and page cursor as they were before the fetch.  For PatientDetail, whose
    two requests are pending together, the error is the rejection that
    settles first. *)
Theorem catch_store_display :
  (forall (W : Type) (srv : server W) (w w' : W) (s : ConsentManagement.State)
          (err : JsError) (account : option string),
      srv _ (ConsentManagement.consentsRequest s) w = (Rejected err, w') ->
      let s' := result srv w (ConsentManagement.fetchConsents s) in
      let msg := message_or err "Failed to fetch consents" in
      ConsentManagement.error s' = Some msg /\
      ConsentManagement.consents s' = [] /\
      ConsentManagement.loading s' = false /\
      ConsentManagement.render account s' = ErrorBox ("Error: " +:+ msg)) /\
  (forall (W : Type) (srv : server W) (w w' : W) (s : PatientList.State) (err : JsError),
      srv _ (getPatients (PatientList.currentPage s) 10 (PatientList.searchTerm s)) w
      = (Rejected err, w') ->
      let s' := result srv w (PatientList.fetchPatients s) in
      let msg := message_or err "Failed to fetch patients" in
      PatientList.error s' = Some msg /\
      PatientList.patients s' = [] /\
      PatientList.loading s' = false /\
      PatientList.render s' = ErrorBox ("Error: " +:+ msg) /\
      PatientList.pagination s' = PatientList.pagination s /\
      PatientList.currentPage s' = PatientList.currentPage s) /\
  (forall (W : Type) (srv : server W) (w w1 w2 : W) (patientId : string)
          (s : PatientDetail.State) (r1 : settled (option Entity.Patient))
          (r2 : settled RecordsResponse) (err : JsError),
      srv _ (getPatient patientId) w = (r1, w1) ->
      srv _ (getPatientRecords patientId) w1 = (r2, w2) ->
      promise_all (secondSettlesFirst srv w) r1 r2 = Rejected err ->
      let s' := result srv w (PatientDetail.fetchPatientData patientId s) in
      let msg := message_or err "Failed to fetch patient data" in
      PatientDetail.error s' = Some msg /\
      PatientDetail.patient s' = None /\
      PatientDetail.records s' = [] /\
      PatientDetail.loading s' = false /\
      PatientDetail.render s' = ErrorBox ("Error loading patient: " +:+ msg)) /\
  (forall (W : Type) (srv : server W) (w w' : W) (s : TransactionHistory.State)
          (err : JsError) (account : option string),
      srv _ (getTransactions None 20) w = (Rejected err, w') ->
      let s' := result srv w (TransactionHistory.fetchTransactions s) in
      let msg := message_or err "Failed to fetch transactions" in
      TransactionHistory.error s' = Some msg /\
      TransactionHistory.transactions s' = [] /\
      TransactionHistory.loading s' = false /\
      TransactionHistory.render account s' = ErrorBox ("Error: " +:+ msg)) /\
  (forall (W : Type) (srv : server W) (w w' : W) (s : StatsDashboard.State) (err : JsError),
      srv _ getStats w = (Rejected err, w') ->
      let s' := result srv w (StatsDashboard.fetchStats s) in
      let msg := message_or err "Failed to fetch statistics" in
      StatsDashboard.error s' = Some msg /\
      StatsDashboard.stats s' = None /\
      StatsDashboard.loading s' = false /\
      StatsDashboard.render s' = ErrorBox ("Error loading statistics: " +:+ msg)).
Proof.
  repeat apply conj.
  - intros W srv w w' s err account Hsrv s' msg. subst s'. unfold result.
    rewrite (fetchConsents_rejected srv _ _ _ _ Hsrv). fold msg.
    stored_message msg. destruct msg as [|c m]; [discriminate|].
    repeat split.
  - intros W srv w w' s err Hsrv s' msg. subst s'. unfold result.
    rewrite (fetchPatients_rejected srv _ _ _ _ Hsrv). fold msg.
    stored_message msg. destruct msg as [|c m]; [discriminate|].
    repeat split.
  - intros W srv w w1 w2 patientId s r1 r2 err H1 H2 Hall s' msg. subst s'. unfold result.
    rewrite (fetchPatientData_rejected srv _ _ _ _ _ _ _ _ H1 H2 Hall). fold msg.
    stored_message msg. destruct msg as [|c m]; [discriminate|].
    repeat split.
  - intros W srv w w' s err account Hsrv s' msg. subst s'. unfold result.
    rewrite (fetchTransactions_rejected srv _ _ _ _ Hsrv). fold msg.
    stored_message msg. destruct msg as [|c m]; [discriminate|].
    repeat split.
  - intros W srv w w' s err Hsrv s' msg. subst s'. unfold result.
    rewrite (fetchStats_rejected srv _ _ _ _ Hsrv). fold msg.
    stored_message msg. destruct msg as [|c m]; [discriminate|].
    repeat split.
Qed.

Lemma catch_store_display_witness :
  PatientList.render
    (result (Sample.rejecting Sample.networkError) tt
       (PatientList.fetchPatients Sample.listOnSecondPage))
  = ErrorBox "Error: Network Error".
Proof.
  pose proof (proj1 (proj2 catch_store_display) unit
                (Sample.rejecting Sample.networkError) tt tt
                Sample.listOnSecondPage Sample.networkError eq_refl) as H.
  exact (proj1 (proj2 (proj2 (proj2 H)))).
Defined.

(** When both requests of PatientDetail are rejected and the records
    request is rejected first, it is the records error that is stored. *)
Example fetchPatientData_stores_first_rejection :
  PatientDetail.error
    (result Fixture.recordsFailFirst tt
       (PatientDetail.fetchPatientData "patient-001" PatientDetail.initial))
  = Some "Records unavailable".
Proof. reflexivity. Qed.

(** With one request rejected and the other resolved, the order does not
    matter. *)
Lemma promise_all_single_rejection {R1 R2} (secondFirst : bool)
    (a : R1) (b : R2) (err : JsError) :
  promise_all secondFirst (Rejected (R := R1) err) (Resolved b) = Rejected err /\
  promise_all secondFirst (Resolved a) (Rejected (R := R2) err) = Rejected err.
Proof. split; reflexivity. Qed.

End FailurePolicy.

(* ===================================================================== *)
(** ** What a successful fetch stores *)
(* ===================================================================== *)

Section PassThrough.

Import Api.

Context {W : Type} (srv : server W).

(** [fetchConsents] stores the response's [consents] array as it is, and the
    empty array when the response has none. *)
Lemma fetchConsents_resolved (w w' : W) (s : ConsentManagement.State)
    (response : ConsentsResponse) :
  srv _ (ConsentManagement.consentsRequest s) w = (Resolved response, w') ->
  let s' := result srv w (ConsentManagement.fetchConsents s) in
  ConsentManagement.consents s' = default [] (consents response) /\
  ConsentManagement.error s' = None /\
  ConsentManagement.loading s' = false.
Proof.
  intros Hsrv s'. subst s'. unfold result, ConsentManagement.fetchConsents.
  erewrite run_Await by exact Hsrv. repeat split.
Qed.

(** [fetchTransactions] likewise. *)
Lemma fetchTransactions_resolved (w w' : W) (s : TransactionHistory.State)
    (response : TransactionsResponse) :
  srv _ (getTransactions None 20) w = (Resolved response, w') ->
  run srv w (TransactionHistory.fetchTransactions s)
  = ({| TransactionHistory.transactions := default [] (transactions response);
        TransactionHistory.loading := false;
        TransactionHistory.error := None |},
     w', [Request (getTransactions None 20)]).
Proof.
  intros Hsrv. unfold TransactionHistory.fetchTransactions.
  erewrite run_Await by exact Hsrv. reflexivity.
Qed.

(** [fetchStats] stores the statistics object, or null. *)
Lemma fetchStats_resolved (w w' : W) (s : StatsDashboard.State)
    (response : option Entity.Stats) :
  srv _ getStats w = (Resolved response, w') ->
  let s' := result srv w (StatsDashboard.fetchStats s) in
  StatsDashboard.stats s' = response /\
  StatsDashboard.error s' = None /\
  StatsDashboard.loading s' = false.
Proof.
  intros Hsrv s'. subst s'. unfold result, StatsDashboard.fetchStats.
  erewrite run_Await by exact Hsrv. repeat split.
Qed.

(** [fetchPatients] stores the response's [patients] array as it is when the
    response has a [pagination] object. *)
Lemma fetchPatients_stores_patients (w w' : W) (s : PatientList.State)
    (response : PatientsResponse) (pg : ServerPagination) :
  srv _ (getPatients (PatientList.currentPage s) 10 (PatientList.searchTerm s)) w
  = (Resolved response, w') ->
  pagination response = Some pg ->
  PatientList.patients (result srv w (PatientList.fetchPatients s))
  = default [] (patients response).
Proof.
  intros Hsrv Hpg. unfold result.
  now rewrite (fetchPatients_resolved srv _ _ _ _ _ Hsrv Hpg).
Qed.

(** [fetchPatientData] stores the patient object as it is, and the [records]
    property of the records response: for a response that is an object this
    is its array, or the empty array when it has none. *)
Lemma fetchPatientData_resolved (w w1 w2 : W) (patientId : string)
    (s : PatientDetail.State) (patientResponse : option Entity.Patient)
    (recordsResponse : RecordsResponse) :
  srv _ (getPatient patientId) w = (Resolved patientResponse, w1) ->
  srv _ (getPatientRecords patientId) w1 = (Resolved recordsResponse, w2) ->
  let s' := result srv w (PatientDetail.fetchPatientData patientId s) in
  PatientDetail.patient s' = patientResponse /\
  PatientDetail.records s' = default [] (PatientDetail.records_of recordsResponse) /\
  PatientDetail.error s' = None /\
  PatientDetail.loading s' = false.
Proof.
  intros H1 H2 s'. subst s'. unfold result, PatientDetail.fetchPatientData.
  erewrite run_AwaitAll by eassumption. repeat split.
Qed.

End PassThrough.

Section DirectArray.

Import Api.

(** C7: when the records endpoint answers with a bare array, the fetch
    succeeds, the patient is stored, and the stored records are the empty
    array although the response carries one record. *)
Theorem fetchPatientData_drops_direct_array :
  let s' := result Sample.bareArray tt
              (PatientDetail.fetchPatientData "patient-001" PatientDetail.initial) in
  PatientDetail.error s' = None /\
  PatientDetail.patient s' = Some Sample.alice /\
  PatientDetail.records s' = [] /\
  PatientDetail.records s' <> [Sample.labReport].
Proof. repeat split; discriminate. Qed.

(** It happens for every bare array, whatever it holds. *)
Lemma records_of_direct (elements : list Entity.MedicalRecord) :
  default [] (PatientDetail.records_of (Direct elements)) = [].
Proof. reflexivity. Qed.

End DirectArray.

(* ===================================================================== *)
(** ** Approving a consent *)
(* ===================================================================== *)

Section ApproveFacts.

Import Api.

Context {W : Type} (srv : server W).

(** C9: whatever status a card passes to [onUpdateStatus], the handler runs
    as [handleUpdateStatus] on the consent id alone, its first call is
    [updateConsent] on that id with the body [{status: "active"}], and it
    makes no other [updateConsent] call; [handleApprove] is one such caller. *)
Theorem approve_always_requests_active (w : W) (id status : string)
    (s : ConsentManagement.State) :
  ConsentManagement.onUpdateStatus id status s = ConsentManagement.handleUpdateStatus id s /\
  (exists rest : list request,
      requests srv w (ConsentManagement.onUpdateStatus id status s)
      = Request (updateConsent id [("status", "active")]) :: rest /\
      omap updateConsent_of rest = []) /\
  (forall consent : Entity.Consent,
      ConcentCard.handleApprove consent (Some ConsentManagement.onUpdateStatus) s
      = ConsentManagement.onUpdateStatus (Entity.c_id consent) "active" s).
Proof.
  split; [reflexivity|]. split; [|reflexivity].
  unfold requests, ConsentManagement.onUpdateStatus, ConsentManagement.handleUpdateStatus.
  destruct (srv _ (updateConsent id [("status", "active")]) w) as [r w1] eqn:Hsrv.
  erewrite run_Await by exact Hsrv. simpl snd.
  eexists; split; [reflexivity|].
  destruct r as [[]|err].
  - unfold ConsentManagement.fetchConsents. simpl.
    destruct (srv _ _ w1) as [r' w2]. reflexivity.
  - simpl. destruct (srv _ _ w1) as [r' w2]. reflexivity.
Qed.

End ApproveFacts.

(* ===================================================================== *)
(** ** TransactionHistory and the connected wallet *)
(* ===================================================================== *)

Section AccountFacts.

Import Api.

Context {W : Type} (srv : server W).

Lemma accountEffect_connected (account : option string)
    (s : TransactionHistory.State) :
  JsString.truthy account = true ->
  TransactionHistory.accountEffect account s = TransactionHistory.fetchTransactions s.
Proof. intros H. unfold TransactionHistory.accountEffect. now rewrite H. Qed.

(** The state in which a fetch ends does not depend on the one it started
    in. *)
Lemma fetchTransactions_overwrites (w : W) (s1 s2 : TransactionHistory.State) :
  run srv w (TransactionHistory.fetchTransactions s1)
  = run srv w (TransactionHistory.fetchTransactions s2).
Proof.
  unfold TransactionHistory.fetchTransactions. simpl.
  destruct (srv _ (getTransactions None 20) w) as [[response|err] w1]; reflexivity.
Qed.

(** C10: for two non-empty accounts the effect issues the same single
    request, [getTransactions(null, 20)], and ends in the same state; with an
    empty account it issues no request and clears the list; and in the render
    the account decides nothing but the "Filtering for:" indicator, which
    shows the formatted address. *)
Theorem fetch_independent_of_account (w : W) (s : TransactionHistory.State) :
  (forall a1 a2 : option string,
      JsString.truthy a1 = true -> JsString.truthy a2 = true ->
      requests srv w (TransactionHistory.accountEffect a1 s)
      = [Request (getTransactions None 20)] /\
      run srv w (TransactionHistory.accountEffect a1 s)
      = run srv w (TransactionHistory.accountEffect a2 s)) /\
  (forall a : option string,
      JsString.truthy a = false ->
      run srv w (TransactionHistory.accountEffect a s)
      = (TransactionHistory.setLoading false (TransactionHistory.setTransactions [] s),
         w, [])) /\
  (forall a1 a2 : option string,
      match TransactionHistory.render a1 s, TransactionHistory.render a2 s with
      | LoadingBox t1, LoadingBox t2 => t1 = t2
      | ErrorBox t1, ErrorBox t2 => t1 = t2
      | Content c1, Content c2 =>
          TransactionHistory.cards c1 = TransactionHistory.cards c2 /\
          TransactionHistory.walletFilter c1
          = (if JsString.truthy a1
             then Some ("Filtering for: " +:+ Format.formatWalletAddress a1)
             else None)
      | _, _ => False
      end).
Proof.
  repeat apply conj.
  - intros a1 a2 H1 H2. rewrite !accountEffect_connected by assumption.
    split; [|reflexivity].
    unfold requests, TransactionHistory.fetchTransactions. simpl.
    destruct (srv _ (getTransactions None 20) w) as [[response|err] w1]; reflexivity.
  - intros a Ha. unfold TransactionHistory.accountEffect. now rewrite Ha.
  - intros a1 a2. unfold TransactionHistory.render.
    destruct (TransactionHistory.loading s); [reflexivity|].
    destruct (JsString.truthy (TransactionHistory.error s)); [reflexivity|].
    split; reflexivity.
Qed.

End AccountFacts.

Lemma fetch_independent_of_account_witness :
  Api.run (Sample.rejecting Sample.networkError) tt
    (TransactionHistory.accountEffect
       (Some "0x742d35Cc6634C0532925a3b844Bc9e7595f0bEb") TransactionHistory.initial)
  = Api.run (Sample.rejecting Sample.networkError) tt
      (TransactionHistory.accountEffect (Some "0xFFFF") TransactionHistory.initial).
Proof.
  exact (proj2 (proj1 (fetch_independent_of_account
                         (Sample.rejecting Sample.networkError) tt
                         TransactionHistory.initial)
                  (Some "0x742d35Cc6634C0532925a3b844Bc9e7595f0bEb") (Some "0xFFFF")
                  eq_refl eq_refl)).
Defined.

(* ===================================================================== *)
(** ** The search debounce *)
(* ===================================================================== *)

Section DebounceFacts.

Import Debounce.

Lemma armed_mount : armed mount 0.
Proof. split; [reflexivity|]. right. exists 1%nat. split; reflexivity. Qed.

(** After the cleanup of the previous effect nothing is pending, provided
    the only timer that can be pending is the one the cleanup holds. *)
Lemma runCleanup_clears (st : State) :
  (timers st = [] \/
   exists tm : Timer, timers st = [tm] /\ cleanup st = Some (timerId tm)) ->
  timers (runCleanup st) = [].
Proof.
  intros [Hnil|(tm & Htm & Hcl)]; unfold runCleanup.
  - destruct (cleanup st); simpl; rewrite ?Hnil; reflexivity.
  - rewrite Hcl. simpl. rewrite Htm.
    rewrite filter_cons, decide_False by auto. reflexivity.
Qed.

Lemma armed_single (st : State) (t : Z) :
  armed st t ->
  timers st = [] \/
  exists tm : Timer, timers st = [tm] /\ cleanup st = Some (timerId tm).
Proof.
  intros [_ [Hnil|(id & Htm & Hcl)]]; [now left|].
  right. eexists; split; [exact Htm | exact Hcl].
Qed.

Lemma runCleanup_rest (st : State) :
  component (runCleanup st) = component st /\
  now (runCleanup st) = now st /\
  nextTimerId (runCleanup st) = nextTimerId st.
Proof. unfold runCleanup. destruct (cleanup st); repeat split. Qed.

(** Typing a new value leaves exactly the timer for that value. *)
Lemma step_typed_new (st st' : State) (t : Z) (value : string) :
  armed st t ->
  value <> PatientList.searchInput (component st) ->
  step st (Typed value) = Some st' ->
  timers st' = [{| timerId := nextTimerId st; due := now st + delay; captured := value |}] /\
  cleanup st' = Some (nextTimerId st) /\
  now st' = now st /\
  component st' = PatientList.handleSearch value (component st).
Proof.
  intros Harmed Hne Hstep. unfold step in Hstep.
  destruct (String.eqb_spec value (PatientList.searchInput (component st))) as [|_];
    [contradiction|].
  injection Hstep as <-.
  set (st1 := withComponent (PatientList.handleSearch value (component st)) st).
  assert (Hclear : timers (runCleanup st1) = [])
    by (apply runCleanup_clears, (armed_single st t Harmed)).
  destruct (runCleanup_rest st1) as (Hc & Hn & Hid).
  unfold debounceEffect, setTimeout. simpl.
  rewrite Hclear, Hc, Hn, Hid. repeat split.
Qed.

(** A timer that fires is the pending one; it is due, and its callback runs. *)
Lemma step_fire (st st' : State) (t : Z) (id : nat) :
  armed st t ->
  step st (Fire id) = Some st' ->
  t + delay <= now st /\
  timers st' = [] /\
  now st' = now st /\
  component st'
  = PatientList.setCurrentPage 1
      (PatientList.setSearchTerm (PatientList.searchInput (component st)) (component st)).
Proof.
  intros [Ht [Hnil|(id' & Htm & Hcl)]] Hstep; unfold step in Hstep.
  - rewrite Hnil in Hstep. discriminate.
  - rewrite Htm in Hstep. simpl in Hstep.
    destruct (Nat.eqb_spec id' id) as [->|]; simpl in Hstep; [|discriminate].
    destruct (Z.leb_spec (t + delay) (now st)) as [Hdue|]; [|discriminate].
    injection Hstep as <-. simpl. rewrite Htm.
    rewrite filter_cons, decide_False by (simpl; auto).
    repeat split. exact Hdue.
Qed.

(** Fetching and paging leave the search box and the search term alone. *)
Lemma fetchPatients_keeps_search (r : Api.settled Api.PatientsResponse)
    (s : PatientList.State) :
  let s' := Api.result (answering r) tt (PatientList.fetchPatients s) in
  PatientList.searchInput s' = PatientList.searchInput s /\
  PatientList.searchTerm s' = PatientList.searchTerm s.
Proof.
  destruct r as [[ps [pg|]]|err]; split; reflexivity.
Qed.

Lemma paging_keeps_search (s : PatientList.State) :
  (PatientList.searchInput (PatientList.handlePreviousPage s) = PatientList.searchInput s /\
   PatientList.searchTerm (PatientList.handlePreviousPage s) = PatientList.searchTerm s) /\
  (PatientList.searchInput (PatientList.handleNextPage s) = PatientList.searchInput s /\
   PatientList.searchTerm (PatientList.handleNextPage s) = PatientList.searchTerm s).
Proof.
  unfold PatientList.handlePreviousPage, PatientList.handleNextPage.
  destruct (PatientList.pagination s) as [[pg [] []]|]; repeat split.
Qed.

(** A step that only replaces the component, keeping [searchInput]. *)
Lemma armed_withComponent (st : State) (t : Z) (s : PatientList.State) :
  PatientList.searchInput s = PatientList.searchInput (component st) ->
  armed st t -> armed (withComponent s st) t.
Proof.
  intros Hin [Ht Hp]. split; [exact Ht|]. simpl. now rewrite Hin.
Qed.

Lemma armed_step (st st' : State) (t : Z) (e : event) :
  armed st t -> step st e = Some st' -> armed st' (lastChange st e t).
Proof.
  intros Harmed Hstep. destruct e as [value|ms|id|r| |].
  - simpl lastChange.
    destruct (String.eqb_spec value (PatientList.searchInput (component st))) as [Heq|Hne].
    + unfold step in Hstep. rewrite <- Heq, String.eqb_refl in Hstep.
      now injection Hstep as <-.
    + destruct (step_typed_new _ _ _ _ Harmed Hne Hstep) as (Htm & Hcl & Hnow & Hcomp).
      split; [lia|]. right. exists (nextTimerId st).
      rewrite Htm, Hcl, Hcomp. split; reflexivity.
  - simpl in *. destruct (Z.leb_spec 0 ms); [|discriminate].
    injection Hstep as <-. destruct Harmed as [Ht Hp]. split; [simpl; lia | exact Hp].
  - destruct (step_fire _ _ _ _ Harmed Hstep) as (_ & Hnil & Hnow & _).
    destruct Harmed as [Ht _]. split; [simpl; lia | now left].
  - simpl in *. injection Hstep as <-.
    apply armed_withComponent; [|exact Harmed]. apply fetchPatients_keeps_search.
  - simpl in *. injection Hstep as <-.
    apply armed_withComponent; [|exact Harmed]. apply paging_keeps_search.
  - simpl in *. injection Hstep as <-.
    apply armed_withComponent; [|exact Harmed]. apply paging_keeps_search.
Qed.

Lemma armed_exec (es : list event) (st st' : State) (t t' : Z) :
  armed st t -> exec st t es = Some (st', t') -> armed st' t'.
Proof.
  revert st t. induction es as [|e es IH]; intros st t Harmed Hexec; simpl in Hexec.
  - now injection Hexec as <- <-.
  - destruct (step st e) as [st1|] eqn:Hstep; [|discriminate].
    eapply IH; [|exact Hexec]. eapply armed_step; eassumption.
Qed.

(** Only a firing timer writes [searchTerm]. *)
Lemma searchTerm_changes_by_fire (st st' : State) (e : event) :
  step st e = Some st' ->
  PatientList.searchTerm (component st') <> PatientList.searchTerm (component st) ->
  exists id : nat, e = Fire id.
Proof.
  intros Hstep Hne. destruct e as [value|ms|id|r| |]; [| |now exists id| | |]; exfalso.
  - unfold step in Hstep.
    destruct (String.eqb value (PatientList.searchInput (component st)));
      injection Hstep as <-; [now apply Hne|].
    apply Hne. unfold debounceEffect, setTimeout. simpl.
    now rewrite (proj1 (runCleanup_rest _)).
  - simpl in Hstep. destruct (0 <=? ms); [|discriminate].
    injection Hstep as <-. now apply Hne.
  - simpl in Hstep. injection Hstep as <-. apply Hne.
    apply fetchPatients_keeps_search.
  - simpl in Hstep. injection Hstep as <-. apply Hne. apply paging_keeps_search.
  - simpl in Hstep. injection Hstep as <-. apply Hne. apply paging_keeps_search.
Qed.

(** C2: in every state the mounted component can reach, with [t] the instant
    [searchInput] last changed: a timer that fires sets [searchTerm] to the
    present [searchInput] and [currentPage] to 1, and does so no earlier than
    500 ms after [t]; [searchTerm] changes in no other step; typing a new
    value discards the pending timer and leaves one timer, due 500 ms later,
    for the new value; and once those 500 ms have passed that timer can fire. *)
Theorem debounce_search (es : list event) (st : State) (t : Z) :
  exec mount 0 es = Some (st, t) ->
  (forall (id : nat) (st' : State),
      step st (Fire id) = Some st' ->
      PatientList.searchTerm (component st') = PatientList.searchInput (component st) /\
      PatientList.searchInput (component st') = PatientList.searchInput (component st) /\
      PatientList.currentPage (component st') = 1 /\
      t + 500 <= now st) /\
  (forall (e : event) (st' : State),
      step st e = Some st' ->
      PatientList.searchTerm (component st') <> PatientList.searchTerm (component st) ->
      exists id : nat, e = Fire id) /\
  (forall (value : string) (st1 : State),
      value <> PatientList.searchInput (component st) ->
      step st (Typed value) = Some st1 ->
      timers st1 = [{| timerId := nextTimerId st; due := now st + 500; captured := value |}] /\
      PatientList.searchTerm (component st1) = PatientList.searchTerm (component st) /\
      step st1 (Fire (nextTimerId st)) = None /\
      exists st2 st3 : State,
        step st1 (Elapse 500) = Some st2 /\
        step st2 (Fire (nextTimerId st)) = Some st3 /\
        PatientList.searchTerm (component st3) = value /\
        PatientList.currentPage (component st3) = 1).
Proof.
  intros Hexec.
  assert (Harmed : armed st t) by (eapply armed_exec; [apply armed_mount | exact Hexec]).
  repeat apply conj.
  - intros id st' Hstep.
    destruct (step_fire _ _ _ _ Harmed Hstep) as (Hdue & _ & _ & Hcomp).
    rewrite Hcomp. repeat split. exact Hdue.
  - intros e st'. apply searchTerm_changes_by_fire.
  - intros value st1 Hne Hstep.
    destruct (step_typed_new _ _ _ _ Harmed Hne Hstep) as (Htm & Hcl & Hnow & Hcomp).
    split; [exact Htm|]. split; [now rewrite Hcomp|].
    split.
    + unfold step. rewrite Htm. simpl. rewrite Nat.eqb_refl. simpl.
      destruct (Z.leb_spec (now st + delay) (now st1)) as [Hle|]; [|reflexivity].
      unfold delay in Hle. lia.
    + eexists. eexists. split; [reflexivity|].
      unfold step. simpl. rewrite Htm. simpl. rewrite Nat.eqb_refl. simpl.
      destruct (Z.leb_spec (now st + delay) (now st1 + 500)) as [_|Hgt];
        [|unfold delay in Hgt; lia].
      split; [reflexivity|]. split; reflexivity.
Qed.

(** On the sample: "a" never reaches [searchTerm]; the timer armed for "ab"
    at 200 ms fires at 700 ms. *)
Lemma debounce_search_witness :
  exists st st' : State,
    exec mount 0 Sample.typing = Some (st, 200) /\
    step st (Fire 3) = Some st' /\
    PatientList.searchTerm (component st') = "ab" /\
    200 + 500 <= now st.
Proof.
  eexists. eexists. split; [reflexivity|]. split; [reflexivity|].
  pose proof (proj1 (debounce_search Sample.typing _ 200 eq_refl) 3%nat _ eq_refl)
    as (Hterm & _ & _ & Hdue).
  split; [exact Hterm | exact Hdue].
Defined.

Example stale_timer_cannot_fire :
  exists st : State,
    exec mount 0 Sample.typing = Some (st, 200) /\
    step st (Fire 2) = None /\ step st (Fire 1) = None.
Proof. eexists. repeat split. Qed.

End DebounceFacts.

(* ===================================================================== *)
(** ** More on the text helpers *)
(* ===================================================================== *)

Section TextHelperFacts.

Import JsString Format.

Lemma take_app_exact (h r : string) : take (String.length h) (h +:+ r) = h.
Proof.
  induction h as [|c h IH]; [destruct r; reflexivity|].
  rewrite app_cons. simpl. f_equal. apply IH.
Qed.

Lemma drop_app_exact (h r : string) : drop (String.length h) (h +:+ r) = r.
Proof. induction h as [|c h IH]; [destruct r; reflexivity|]. rewrite app_cons. apply IH. Qed.

Lemma truncateDescription_cut (text : string) (maxLength : Z) :
  0 <= maxLength -> maxLength < len text ->
  truncateDescription text maxLength = take (Z.to_nat maxLength) text +:+ "...".
Proof.
  intros Hnn Hlt. unfold truncateDescription.
  destruct (Z.leb_spec (len text) maxLength); [lia|].
  now rewrite slice_prefix.
Qed.

(** The length of the result: the text's own when it fits, [maxLength + 3]
    when it is cut; so the result is longer than the text exactly when the
    text exceeds [maxLength] by one or two code units. *)
Theorem truncateDescription_length (text : string) (maxLength : Z) :
  0 <= maxLength ->
  len (truncateDescription text maxLength)
  = (if len text <=? maxLength then len text else maxLength + 3) /\
  (len text < len (truncateDescription text maxLength)
   <-> maxLength < len text < maxLength + 3).
Proof.
  intros Hnn.
  assert (Hlen : len (truncateDescription text maxLength)
                 = if len text <=? maxLength then len text else maxLength + 3).
  { destruct (Z.leb_spec (len text) maxLength) as [Hle|Hlt].
    - unfold truncateDescription.
      destruct (Z.leb_spec (len text) maxLength); [reflexivity | lia].
    - rewrite truncateDescription_cut by assumption.
      unfold len in *. rewrite length_app, length_take. simpl String.length. lia. }
  split; [exact Hlen|]. rewrite Hlen.
  destruct (Z.leb_spec (len text) maxLength); lia.
Qed.

Lemma truncateDescription_length_witness :
  len "abcd" < len (truncateDescription "abcd" 3).
Proof.
  apply (proj2 (truncateDescription_length "abcd" 3 ltac:(lia))).
  unfold len; simpl; lia.
Defined.

(** Truncating an already truncated text with the same bound changes
    nothing. *)
Theorem truncateDescription_idempotent (text : string) (maxLength : Z) :
  0 <= maxLength ->
  truncateDescription (truncateDescription text maxLength) maxLength
  = truncateDescription text maxLength.
Proof.
  intros Hnn. destruct (Z.leb_spec (len text) maxLength) as [Hle|Hlt].
  - assert (H : truncateDescription text maxLength = text).
    { unfold truncateDescription.
      destruct (Z.leb_spec (len text) maxLength); [reflexivity | lia]. }
    now rewrite !H.
  - rewrite (truncateDescription_cut text) by assumption.
    set (p := take (Z.to_nat maxLength) text).
    assert (Hp : String.length p = Z.to_nat maxLength).
    { unfold p, len in *. rewrite length_take. lia. }
    rewrite truncateDescription_cut; [|assumption|].
    + rewrite <- Hp. now rewrite take_app_exact.
    + unfold len. rewrite length_app, Hp. simpl String.length. lia.
Qed.

Lemma truncateDescription_idempotent_witness :
  truncateDescription (truncateDescription "Routine blood panel" 7) 7 = "Routine...".
Proof.
  rewrite (truncateDescription_idempotent "Routine blood panel" 7); [reflexivity | lia].
Defined.

(** With a negative bound the function is not idempotent. *)
Example truncateDescription_negative_not_idempotent :
  truncateDescription (truncateDescription "abc" (-1)) (-1) = "ab.....".
Proof. reflexivity. Qed.

(** An address of at least 14 code units is rendered in exactly 17, and
    formatting the rendering again changes nothing. *)
Theorem formatWalletAddress_fixed_width (address : string) :
  (14 <= String.length address)%nat ->
  String.length (formatWalletAddress (Some address)) = 17%nat /\
  formatWalletAddress (Some (formatWalletAddress (Some address)))
  = formatWalletAddress (Some address).
Proof.
  intros Hlen.
  assert (Hne : address <> "") by (destruct address; [simpl in Hlen; lia | discriminate]).
  assert (H17 : String.length (formatWalletAddress (Some address)) = 17%nat).
  { rewrite formatWalletAddress_length by assumption. lia. }
  split; [exact H17|].
  assert (Hne' : formatWalletAddress (Some address) <> "").
  { intros E. rewrite E in H17. discriminate. }
  rewrite (formatWalletAddress_nonempty _ Hne'), H17.
  rewrite (formatWalletAddress_nonempty _ Hne).
  set (h := take 8 address). set (t := drop (String.length address - 6) address).
  assert (Hh : String.length h = 8%nat) by (unfold h; rewrite length_take; lia).
  assert (Ht : String.length t = 6%nat) by (unfold t; rewrite length_drop; lia).
  f_equal.
  - rewrite <- Hh. apply take_app_exact.
  - f_equal.
    assert (E : h +:+ "..." +:+ t = (h +:+ "...") +:+ t).
    { clear. induction h as [|c h IH]; [reflexivity|].
      rewrite !app_cons. f_equal. exact IH. }
    rewrite E.
    assert (E11 : (17 - 6)%nat = String.length (h +:+ "..."))
      by (rewrite length_app, Hh; reflexivity).
    rewrite E11. apply drop_app_exact.
Qed.

Lemma formatWalletAddress_fixed_width_witness :
  String.length (formatWalletAddress (Some Fixture.wallet)) = 17%nat.
Proof.
  apply (formatWalletAddress_fixed_width Fixture.wallet). simpl. lia.
Defined.

End TextHelperFacts.

(* ===================================================================== *)
(** ** formatDate on date-only strings *)
(* ===================================================================== *)

Section DateOnlyFacts.

Import Format.

(** A string of ten code units that parses is a date-only form: it is read
    as midnight UTC of that day on every host. *)
Lemma parse_date_only (off : Z) (s : string) :
  String.length s = 10%nat ->
  JsDate.parse off s = JsDate.parse 0 s /\
  forall t : Z, JsDate.parse 0 s = Some t -> exists k : Z, t = k * JsDate.msPerDay.
Proof.
  intros Hlen.
  do 10 (destruct s as [|? s]; [discriminate Hlen|]).
  destruct s; [|discriminate Hlen].
  unfold JsDate.parse. cbn -[Z.mul Z.add Z.leb JsDate.days_from_civil JsDate.days_in_month Ascii.eqb JsDate.digit].
  repeat match goal with
         | |- context [JsDate.digit ?c] =>
             destruct (JsDate.digit c);
             cbn -[Z.mul Z.add Z.leb JsDate.days_from_civil JsDate.days_in_month Ascii.eqb JsDate.digit];
             [|split; [reflexivity | discriminate]]
         | |- context [Ascii.eqb ?c ?d] =>
             destruct (Ascii.eqb c d);
             cbn -[Z.mul Z.add Z.leb JsDate.days_from_civil JsDate.days_in_month Ascii.eqb JsDate.digit];
             [|split; [reflexivity | discriminate]]
         end.
  split; [reflexivity|].
  match goal with
  | |- context [if ?b then _ else _] => destruct b; [|discriminate]
  end.
  intros t [= <-]. eexists. reflexivity.
Qed.

(** For a date-only string, every host from UTC up to 24 hours east of it
    renders the day a UTC host renders, and every host up to 24 hours west of
    UTC renders the day a UTC host would render for the instant 24 hours
    earlier. *)
Theorem formatDate_date_only (off : Z) (dateString : string) (t : Z) :
  String.length dateString = 10%nat ->
  JsDate.parse 0 dateString = Some t ->
  (0 <= off < 1440 -> formatDate off dateString = formatDate 0 dateString) /\
  (-1440 <= off < 0 ->
   formatDate off dateString = JsDate.toLocaleDateString 0 (t - JsDate.msPerDay)).
Proof.
  intros Hlen Hparse.
  destruct (parse_date_only off dateString Hlen) as [Hoff Hmid].
  destruct (Hmid t Hparse) as [k ->].
  unfold formatDate. rewrite Hoff, Hparse. simpl.
  unfold JsDate.toLocaleDateString, JsDate.msPerMinute, JsDate.msPerDay.
  split; intros Hrange.
  - replace ((k * 86400000 + off * 60000) / 86400000) with k
      by (apply Z.div_unique with (r := off * 60000); lia).
    replace ((k * 86400000 + 0 * 60000) / 86400000) with k
      by (apply Z.div_unique with (r := 0); lia).
    reflexivity.
  - replace ((k * 86400000 + off * 60000) / 86400000) with (k - 1)
      by (apply Z.div_unique with (r := 86400000 + off * 60000); lia).
    replace ((k * 86400000 - 86400000 + 0 * 60000) / 86400000) with (k - 1)
      by (apply Z.div_unique with (r := 0); lia).
    reflexivity.
Qed.

Lemma formatDate_date_only_witness :
  formatDate (-480) "2024-03-01" = Some "Feb 29, 2024".
Proof.
  rewrite (proj2 (formatDate_date_only (-480) "2024-03-01" 1709251200000
                    eq_refl eq_refl) ltac:(lia)).
  vm_compute. reflexivity.
Defined.

End DateOnlyFacts.

(* ===================================================================== *)
(** ** MedicalRecordCard: what the description shows *)
(* ===================================================================== *)

Section RecordCardFacts.

Import Expand.

(** A description of at most 200 code units is shown in full, expanded or
    not, and has no expand button. *)
Theorem short_description_shown_in_full (m : gmap string bool)
    (recordId description : string) :
  JsString.len description <= 200 ->
  shownDescription m recordId description = description /\
  expandButton m recordId description = None.
Proof.
  intros Hshort. unfold shownDescription, expandButton, Format.truncateDescription.
  destruct (Z.leb_spec (JsString.len description) 200); [|lia].
  destruct (Z.ltb_spec 200 (JsString.len description)); [lia|].
  split; [now destruct (expanded m recordId) | reflexivity].
Qed.

Lemma short_description_shown_in_full_witness :
  shownDescription ∅ "rec-1" "Routine blood panel" = "Routine blood panel".
Proof.
  apply (short_description_shown_in_full ∅ "rec-1" "Routine blood panel").
  unfold JsString.len; simpl; lia.
Defined.

(** A longer description of a collapsed record is shown as its first 200
    code units and "...", 203 in all, under a "Read more" button; one click
    shows all of it under "Show less", and a second click shows the cut text
    again. *)
Theorem long_description_toggles (m : gmap string bool)
    (recordId description : string) :
  200 < JsString.len description ->
  expanded m recordId = false ->
  shownDescription m recordId description = JsString.take 200 description +:+ "..." /\
  JsString.len (shownDescription m recordId description) = 203 /\
  expandButton m recordId description = Some "Read more" /\
  shownDescription (toggleExpand recordId m) recordId description = description /\
  expandButton (toggleExpand recordId m) recordId description = Some "Show less" /\
  shownDescription (toggleExpand recordId (toggleExpand recordId m)) recordId description
  = shownDescription m recordId description.
Proof.
  intros Hlong Hcollapsed.
  assert (Hcut : Format.truncateDescription description 200
                 = JsString.take 200 description +:+ "...")
    by (apply (truncateDescription_cut description 200); lia).
  assert (H1 : expanded (toggleExpand recordId m) recordId = true)
    by (rewrite expanded_toggle_same, Hcollapsed; reflexivity).
  assert (H2 : expanded (toggleExpand recordId (toggleExpand recordId m)) recordId = false)
    by (rewrite expanded_toggle_same, H1; reflexivity).
  unfold shownDescription, expandButton. rewrite Hcollapsed, H1, H2, Hcut.
  destruct (Z.ltb_spec 200 (JsString.len description)); [|lia].
  repeat split.
  unfold JsString.len in *. rewrite length_app, length_take. simpl String.length. lia.
Qed.

Lemma long_description_toggles_witness :
  expandButton ∅ "rec-1"
    "Patient presented with intermittent chest pain over three weeks. ECG and troponin were within normal limits. A stress test was scheduled and the patient was advised to return immediately if symptoms worsen or change."
  = Some "Read more".
Proof.
  refine (proj1 (proj2 (proj2 (long_description_toggles ∅ "rec-1" _ _ _)))).
  - unfold JsString.len; simpl; lia.
  - reflexivity.
Defined.

End RecordCardFacts.

(* ===================================================================== *)
(** ** TransactionCard: the type badge *)
(* ===================================================================== *)

Section TransactionCardFacts.

Import TransactionCard.

Lemma app_assoc_str (a b c : string) : (a +:+ b) +:+ c = a +:+ (b +:+ c).
Proof. induction a as [|x a IH]; [reflexivity|]. rewrite !app_cons. f_equal. exact IH. Qed.

(** The badge replaces the first underscore of the type with a space and
    keeps every later one; a type without underscore is shown as it is; the
    label always has the length of the type. *)
Theorem typeLabel_first_underscore (transaction : Entity.Transaction) :
  (forall a b : string,
      occurs "_" a = false ->
      Entity.t_type transaction = a +:+ "_" +:+ b ->
      typeLabel transaction = a +:+ " " +:+ b) /\
  (occurs "_" (Entity.t_type transaction) = false ->
   typeLabel transaction = Entity.t_type transaction) /\
  String.length (typeLabel transaction) = String.length (Entity.t_type transaction).
Proof.
  unfold typeLabel. generalize (Entity.t_type transaction) as ty. intros ty.
  repeat apply conj.
  - intros a b Ha ->. induction a as [|c a IH]; [reflexivity|].
    simpl in Ha. apply orb_false_iff in Ha as [Hc Ha].
    rewrite !app_cons. simpl. rewrite Hc. f_equal. now apply IH.
  - induction ty as [|c ty IH]; [reflexivity|]. simpl.
    intros H. apply orb_false_iff in H as [Hc Hty]. rewrite Hc. f_equal. now apply IH.
  - induction ty as [|c ty IH]; [reflexivity|]. simpl.
    destruct (Ascii.eqb c "_"); [reflexivity|]. simpl. now rewrite IH.
Qed.

Lemma typeLabel_first_underscore_witness :
  typeLabel
    {| Entity.t_id := "tx-2"; Entity.t_type := "medical_record_verification";
       Entity.t_amount := "0"; Entity.t_currency := "ETH";
       Entity.t_status := "pending"; Entity.t_from := ""; Entity.t_to := "";
       Entity.t_blockNumber := 1; Entity.t_timestamp := "2024-01-15";
       Entity.t_gasUsed := "0"; Entity.t_blockchainTxHash := "" |}
  = "medical record_verification".
Proof.
  refine (proj1 (typeLabel_first_underscore _) "medical" "record_verification" _ _);
    reflexivity.
Defined.

End TransactionCardFacts.

(* ===================================================================== *)
(** ** Integers held in doubles *)
(* ===================================================================== *)

Section NumberFacts.

Import JsNumber.

(** Integers of magnitude up to 2^53 are doubles. *)
Lemma round_exact (z : Z) :
  - (maxSafeInteger + 1) <= z <= maxSafeInteger + 1 -> round z = z.
Proof.
  intros Hz. unfold round.
  destruct (Z.leb_spec (Z.abs z) maxSafeInteger) as [|Hbig]; [reflexivity|].
  unfold maxSafeInteger in *.
  assert (Hcase : z = 9007199254740992 \/ z = -9007199254740992) by lia.
  destruct Hcase as [-> | ->]; vm_compute; reflexivity.
Qed.

(** One more and one less than a safe integer are exact. *)
Lemma step_safe (n : Z) :
  - maxSafeInteger <= n <= maxSafeInteger ->
  add n 1 = n + 1 /\ sub n 1 = n - 1.
Proof.
  intros Hn. unfold add, sub. split; apply round_exact; lia.
Qed.

(** From 2^53 on, adding one can leave a number as it is. *)
Example add_one_rounds_back : add 9007199254740992 1 = 9007199254740992.
Proof. vm_compute. reflexivity. Qed.

Example add_one_rounds_up : add 9007199254740994 1 = 9007199254740996.
Proof. vm_compute. reflexivity. Qed.

End NumberFacts.

(* ===================================================================== *)
(** ** PatientList: paging after a fetch *)
(* ===================================================================== *)

Section PagingFacts.

Import Api PatientList.

Context {W : Type} (srv : Api.server W).

(** The state after a fetch, and what the two handlers make of it. *)
Lemma handlers_after_fetch (w w' : W) (s : State)
    (response : PatientsResponse) (pg : ServerPagination) :
  srv _ (getPatients (currentPage s) 10 (searchTerm s)) w = (Resolved response, w') ->
  Api.pagination response = Some pg ->
  let s' := result srv w (fetchPatients s) in
  currentPage s' = page pg /\
  handleNextPage s'
  = (if page pg <? totalPages pg
     then setCurrentPage (JsNumber.add (page pg) 1) s' else s') /\
  handlePreviousPage s'
  = (if 1 <? page pg then setCurrentPage (JsNumber.sub (page pg) 1) s' else s').
Proof.
  intros Hsrv Hpg s'. subst s'. unfold result.
  rewrite (fetchPatients_resolved srv _ _ _ _ _ Hsrv Hpg).
  repeat split.
Qed.

(** After a fetch that reported a page within [1 .. totalPages], the page
    being a safe integer (at most 2^53 - 1), neither paging handler leaves
    that range: each moves the cursor by one, or not at all at its end of the
    range. *)
Theorem paging_stays_in_range (w w' : W) (s : State)
    (response : PatientsResponse) (pg : ServerPagination) :
  srv _ (getPatients (currentPage s) 10 (searchTerm s)) w = (Resolved response, w') ->
  Api.pagination response = Some pg ->
  1 <= page pg <= totalPages pg ->
  page pg <= JsNumber.maxSafeInteger ->
  let s' := result srv w (fetchPatients s) in
  currentPage (handleNextPage s')
  = (if page pg =? totalPages pg then page pg else page pg + 1) /\
  currentPage (handlePreviousPage s')
  = (if page pg =? 1 then page pg else page pg - 1) /\
  1 <= currentPage (handleNextPage s') <= totalPages pg /\
  1 <= currentPage (handlePreviousPage s') <= totalPages pg.
Proof.
  intros Hsrv Hpg Hrange Hsafe s'.
  destruct (handlers_after_fetch _ _ _ _ _ Hsrv Hpg) as (Hcur & Hnext & Hprev).
  fold s' in Hcur, Hnext, Hprev. rewrite Hnext, Hprev.
  destruct (step_safe (page pg)) as [Hadd Hsub]; [lia|]. rewrite Hadd, Hsub.
  destruct (Z.ltb_spec (page pg) (totalPages pg)), (Z.ltb_spec 1 (page pg)),
    (Z.eqb_spec (page pg) (totalPages pg)), (Z.eqb_spec (page pg) 1);
    simpl; rewrite ?Hcur; lia.
Qed.

(** The controls rendered after a fetch. *)
Lemma controls_after_fetch (w w' : W) (s : State)
    (response : PatientsResponse) (pg : ServerPagination) :
  srv _ (getPatients (currentPage s) 10 (searchTerm s)) w = (Resolved response, w') ->
  Api.pagination response = Some pg ->
  render (result srv w (fetchPatients s))
  = Content {| searchBox := searchInput s;
               cards := default [] (Api.patients response);
               controls := Some {| previousDisabled := page pg =? 1;
                                   pageOf := (page pg, totalPages pg);
                                   nextDisabled := page pg =? totalPages pg |} |}.
Proof.
  intros Hsrv Hpg. unfold result.
  rewrite (fetchPatients_resolved srv _ _ _ _ _ Hsrv Hpg). reflexivity.
Qed.

Lemma setCurrentPage_fixed (v : Z) (s : State) :
  setCurrentPage v s = s <-> v = currentPage s.
Proof.
  split.
  - intros E. apply (f_equal currentPage) in E. exact E.
  - intros ->. destruct s; reflexivity.
Qed.

(** After a fetch that reported a safe integer as the page (magnitude at most
    2^53 - 1), a button rendered disabled has a handler that would do
    nothing.  The converse fails only outside the range: Next is enabled and
    does nothing exactly when the reported page is above [totalPages] (an
    empty result reported as page 1 of 0), Previous exactly when the page is
    below 1. *)
Theorem disabled_buttons_do_nothing (w w' : W) (s : State)
    (response : PatientsResponse) (pg : ServerPagination) (shown : Shown) (c : Controls) :
  srv _ (getPatients (currentPage s) 10 (searchTerm s)) w = (Resolved response, w') ->
  Api.pagination response = Some pg ->
  - JsNumber.maxSafeInteger <= page pg <= JsNumber.maxSafeInteger ->
  let s' := result srv w (fetchPatients s) in
  render s' = Content shown ->
  controls shown = Some c ->
  (nextDisabled c = true -> handleNextPage s' = s') /\
  (previousDisabled c = true -> handlePreviousPage s' = s') /\
  (nextDisabled c = false /\ handleNextPage s' = s' <-> totalPages pg < page pg) /\
  (previousDisabled c = false /\ handlePreviousPage s' = s' <-> page pg < 1).
Proof.
  intros Hsrv Hpg Hsafe s' Hrender Hc.
  destruct (handlers_after_fetch _ _ _ _ _ Hsrv Hpg) as (Hcur & Hnext & Hprev).
  fold s' in Hcur, Hnext, Hprev.
  unfold s' in Hrender. rewrite (controls_after_fetch _ _ _ _ _ Hsrv Hpg) in Hrender.
  injection Hrender as <-. simpl in Hc. injection Hc as <-. simpl.
  rewrite Hnext, Hprev.
  destruct (step_safe (page pg) Hsafe) as [Hadd Hsub]. rewrite Hadd, Hsub.
  destruct (Z.ltb_spec (page pg) (totalPages pg)), (Z.ltb_spec 1 (page pg)),
    (Z.eqb_spec (page pg) (totalPages pg)), (Z.eqb_spec (page pg) 1);
    rewrite ?setCurrentPage_fixed, ?Hcur;
    repeat split; try reflexivity; try lia; try discriminate;
    try (intros [_ E]; lia); try (intros [E _]; discriminate E).
Qed.

End PagingFacts.

(** Outside the safe integers the cursor can stand still: for page 2^53 of
    2^53 + 2, Next is rendered enabled, [hasNextPage] holds, and the click
    leaves the page where it is. *)
Example next_page_beyond_safe_integers :
  let s' := Api.result Fixture.hugePageServer tt
              (PatientList.fetchPatients PatientList.initial) in
  PatientList.currentPage s' = 9007199254740992 /\
  PatientList.currentPage (PatientList.handleNextPage s') = 9007199254740992.
Proof. split; vm_compute; reflexivity. Qed.

Lemma paging_stays_in_range_witness :
  PatientList.currentPage
    (PatientList.handleNextPage
       (Api.result Sample.pageTwoOfFive tt
          (PatientList.fetchPatients PatientList.initial))) = 3.
Proof.
  refine (proj1 (paging_stays_in_range Sample.pageTwoOfFive tt tt PatientList.initial
                   Sample.secondPageResponse Sample.secondPage eq_refl eq_refl _ _)).
  - simpl. lia.
  - unfold JsNumber.maxSafeInteger. simpl. lia.
Defined.

Lemma disabled_buttons_do_nothing_witness :
  PatientList.handlePreviousPage
    (Api.result Sample.pageTwoOfFive tt (PatientList.fetchPatients PatientList.initial))
  <> Api.result Sample.pageTwoOfFive tt (PatientList.fetchPatients PatientList.initial).
Proof.
  intros E.
  assert (Hsafe : - JsNumber.maxSafeInteger <= Api.page Sample.secondPage
                  <= JsNumber.maxSafeInteger)
    by (unfold JsNumber.maxSafeInteger; simpl; lia).
  pose proof (disabled_buttons_do_nothing Sample.pageTwoOfFive tt tt PatientList.initial
                Sample.secondPageResponse Sample.secondPage _ _
                eq_refl eq_refl Hsafe eq_refl eq_refl) as (_ & _ & _ & H).
  cbv zeta in H. assert (Hlt : Api.page Sample.secondPage < 1).
  { apply H. split; [reflexivity | exact E]. }
  simpl in Hlt. lia.
Defined.

Section MissingPagination.

Import Api PatientList.

Context {W : Type} (srv : Api.server W).

(** A response whose [pagination] is absent or null ends on the failure
    path: the patients it carried are dropped, the [TypeError] thrown by
    reading [response.pagination.page] is caught, its message (or the
    fallback, should it have none) is stored and rendered as "Error: ..." in
    the error box, loading is false, and the pagination and page cursor stay
    as they were. *)
Theorem fetchPatients_without_pagination (w w' : W) (s : State)
    (response : PatientsResponse) :
  srv _ (getPatients (currentPage s) 10 (searchTerm s)) w = (Resolved response, w') ->
  Api.pagination response = None ->
  let s' := result srv w (fetchPatients s) in
  let msg := message_or (pageReadError response) "Failed to fetch patients" in
  patients s' = [] /\
  error s' = Some msg /\
  loading s' = false /\
  pagination s' = pagination s /\
  currentPage s' = currentPage s /\
  render s' = ErrorBox ("Error: " +:+ msg).
Proof.
  intros Hsrv Hpg s' msg. subst s'. unfold result, fetchPatients.
  erewrite run_Await by exact Hsrv. cbv beta iota. rewrite Hpg.
  unfold fetchFailed. fold msg.
  stored_message msg. destruct msg as [|c m]; [discriminate|].
  repeat split.
Qed.

End MissingPagination.

Lemma fetchPatients_without_pagination_witness :
  PatientList.render
    (Api.result Fixture.noPagination tt (PatientList.fetchPatients PatientList.initial))
  = Api.ErrorBox "Error: Cannot read properties of undefined (reading 'page')".
Proof.
  exact (proj2 (proj2 (proj2 (proj2 (proj2
           (fetchPatients_without_pagination Fixture.noPagination tt tt
              PatientList.initial Fixture.patientsOnly eq_refl eq_refl)))))).
Defined.

(** With [pagination: null] the stored message is the engine's wording for
    null. *)
Example fetchPatients_null_pagination :
  PatientList.error
    (Api.result (Debounce.answering (Api.Resolved Fixture.patientsNullPagination)) tt
       (PatientList.fetchPatients PatientList.initial))
  = Some "Cannot read properties of null (reading 'page')".
Proof. reflexivity. Qed.

(* ===================================================================== *)
(** ** Every fetch: one round of requests, loading switched off *)
(* ===================================================================== *)

Section FetchOnce.

Import Api.

Context {W : Type} (srv : Api.server W).

Lemma run_bind {A B} (w : W) (p : prog A) (f : A -> prog B) :
  run srv w (bind p f)
  = (fst (fst (run srv (snd (fst (run srv w p))) (f (fst (fst (run srv w p)))))),
     snd (fst (run srv (snd (fst (run srv w p))) (f (fst (fst (run srv w p)))))),
     (snd (run srv w p)
      ++ snd (run srv (snd (fst (run srv w p))) (f (fst (fst (run srv w p))))))%list).
Proof.
  revert w. induction p as [a|R c k IH|R1 R2 c1 c2 k IH]; intros w; simpl.
  - destruct (run srv w (f a)) as [[b w2] tr]. reflexivity.
  - destruct (srv R c w) as [r w1]. rewrite IH.
    destruct (run srv w1 (k r)) as [[a w2] tr]. simpl.
    destruct (run srv w2 (f a)) as [[b w3] tr']. reflexivity.
  - destruct (srv R1 c1 w) as [r1 w1]. destruct (srv R2 c2 w1) as [r2 w2]. rewrite IH.
    destruct (run srv w2 (k (promise_all (secondSettlesFirst srv w) r1 r2)))
      as [[a w3] tr]. simpl.
    destruct (run srv w3 (f a)) as [[b w4] tr']. reflexivity.
Qed.

Lemma fetchConsents_requests (w : W) (s : ConsentManagement.State) :
  snd (run srv w (ConsentManagement.fetchConsents s))
  = [Request (ConsentManagement.consentsRequest s)].
Proof.
  unfold ConsentManagement.fetchConsents. simpl.
  destruct (srv _ _ w) as [[response|err] w1]; reflexivity.
Qed.

(** Whatever the server answers, each fetch function issues its request once
    (PatientDetail its two requests, both even when the first is rejected),
    never a second time, and ends with [loading] false. *)
Theorem fetch_issues_one_round (w : W) :
  (forall s : ConsentManagement.State,
      requests srv w (ConsentManagement.fetchConsents s)
      = [Request (ConsentManagement.consentsRequest s)] /\
      ConsentManagement.loading (result srv w (ConsentManagement.fetchConsents s)) = false) /\
  (forall s : PatientList.State,
      requests srv w (PatientList.fetchPatients s)
      = [Request (getPatients (PatientList.currentPage s) 10 (PatientList.searchTerm s))] /\
      PatientList.loading (result srv w (PatientList.fetchPatients s)) = false) /\
  (forall (patientId : string) (s : PatientDetail.State),
      requests srv w (PatientDetail.fetchPatientData patientId s)
      = [Request (getPatient patientId); Request (getPatientRecords patientId)] /\
      PatientDetail.loading (result srv w (PatientDetail.fetchPatientData patientId s))
      = false) /\
  (forall s : TransactionHistory.State,
      requests srv w (TransactionHistory.fetchTransactions s)
      = [Request (getTransactions None 20)] /\
      TransactionHistory.loading (result srv w (TransactionHistory.fetchTransactions s))
      = false) /\
  (forall s : StatsDashboard.State,
      requests srv w (StatsDashboard.fetchStats s) = [Request getStats] /\
      StatsDashboard.loading (result srv w (StatsDashboard.fetchStats s)) = false).
Proof.
  unfold requests, result. repeat apply conj.
  - intros s. unfold ConsentManagement.fetchConsents. simpl.
    destruct (srv _ _ w) as [[response|err] w1]; split; reflexivity.
  - intros s. unfold PatientList.fetchPatients. simpl.
    destruct (srv _ _ w) as [[[ps [pg|]]|err] w1]; split; reflexivity.
  - intros patientId s. unfold PatientDetail.fetchPatientData. simpl.
    destruct (srv _ (getPatient patientId) w) as [r1 w1].
    destruct (srv _ (getPatientRecords patientId) w1) as [r2 w2].
    destruct (promise_all (secondSettlesFirst srv w) r1 r2) as [[p rs]|err];
      split; reflexivity.
  - intros s. unfold TransactionHistory.fetchTransactions. simpl.
    destruct (srv _ _ w) as [[response|err] w1]; split; reflexivity.
  - intros s. unfold StatsDashboard.fetchStats. simpl.
    destruct (srv _ _ w) as [[response|err] w1]; split; reflexivity.
Qed.

End FetchOnce.

(* ===================================================================== *)
(** ** ConsentManagement: creating and approving *)
(* ===================================================================== *)

Section ConsentFacts.

Import Api ConsentManagement.

Context {W : Type} (srv : Api.server W).

(** Without a connected wallet, submitting the form only raises the
    "connect your wallet" alert: nothing is signed, nothing is sent to the
    API, and the state is unchanged. *)
Theorem create_consent_needs_wallet (w : W) (account : option string) (s : State) :
  JsString.truthy account = false ->
  requests srv w (handleCreateConsent account s)
  = [Request (alert "Please connect your wallet first")] /\
  result srv w (handleCreateConsent account s) = s.
Proof.
  intros Hfalsy. unfold requests, result.
  destruct account as [[|c a]|]; try discriminate Hfalsy; simpl;
    destruct (srv _ _ w) as [r w1]; split; reflexivity.
Qed.

(** When the wallet rejects the signature request, [createConsent] is never
    called and the list is not fetched again; when [createConsent] itself is
    rejected the list is not fetched again either.  In both cases the user is
    alerted with the error's message, and the state, form fields included,
    stays as it was. *)
Theorem create_consent_failure_keeps_form (w w1 : W) (acct : string) (s : State)
    (err : JsError) :
  acct <> "" ->
  let message := "I consent to: " +:+ formData_purpose s +:+
                 " for patient: " +:+ formData_patientId s in
  let failure := Request (alert ("Failed to create consent: " +:+ message_text err)) in
  (srv _ (signMessage message) w = (Rejected err, w1) ->
   requests srv w (handleCreateConsent (Some acct) s)
   = [Request (signMessage message); failure] /\
   result srv w (handleCreateConsent (Some acct) s) = s) /\
  (forall (signature : string) (w2 : W),
      let body := {| patientId := formData_patientId s; purpose := formData_purpose s;
                     walletAddress := acct; signature := signature |} in
      srv _ (signMessage message) w = (Resolved signature, w1) ->
      srv _ (createConsent body) w1 = (Rejected err, w2) ->
      requests srv w (handleCreateConsent (Some acct) s)
      = [Request (signMessage message); Request (createConsent body); failure] /\
      result srv w (handleCreateConsent (Some acct) s) = s).
Proof.
  intros Hne message failure. destruct acct as [|c a]; [congruence|].
  unfold requests, result, handleCreateConsent. fold message. split.
  - intros Hsign. erewrite run_Await by exact Hsign. simpl.
    destruct (srv _ _ w1) as [r w2]. split; reflexivity.
  - intros signature w2; cbv zeta; intros Hsign Hcreate.
    erewrite run_Await by exact Hsign. cbv beta iota.
    erewrite run_Await by exact Hcreate. simpl.
    destruct (srv _ _ w2) as [r w3]. split; reflexivity.
Qed.

(** When the wallet signs and [createConsent] resolves, the body sent holds
    the form's patient id and purpose, the connected account and the
    signature the wallet returned; the list is then fetched once, the form is
    emptied and hidden, and the success alert is raised, whether or not that
    fetch succeeded. *)
Theorem create_consent_success (w w1 w2 : W) (acct : string) (s : State)
    (signature : string) :
  acct <> "" ->
  let message := "I consent to: " +:+ formData_purpose s +:+
                 " for patient: " +:+ formData_patientId s in
  let body := {| patientId := formData_patientId s; purpose := formData_purpose s;
                 walletAddress := acct; signature := signature |} in
  srv _ (signMessage message) w = (Resolved signature, w1) ->
  srv _ (createConsent body) w1 = (Resolved tt, w2) ->
  requests srv w (handleCreateConsent (Some acct) s)
  = [Request (signMessage message); Request (createConsent body);
     Request (consentsRequest s); Request (alert "Consent created successfully!")] /\
  result srv w (handleCreateConsent (Some acct) s)
  = setShowCreateForm false (setFormData "" "" (result srv w2 (fetchConsents s))).
Proof.
  intros Hne message body Hsign Hcreate. destruct acct as [|c a]; [congruence|].
  unfold requests, result, handleCreateConsent. fold message.
  erewrite run_Await by exact Hsign. cbv beta iota.
  erewrite run_Await by exact Hcreate. cbv beta iota.
  rewrite run_bind.
  rewrite fetchConsents_requests.
  set (fetched := run srv w2 (fetchConsents s)). simpl.
  destruct (srv unit (alert "Consent created successfully!") (snd (fst fetched)))
    as [r w3].
  split; reflexivity.
Qed.

(** When [updateConsent] is rejected the list is not fetched again, the
    state is unchanged and the user is alerted; when it resolves, the handler
    continues exactly as [fetchConsents] does. *)
Theorem update_status_refetches_on_success (w w1 : W) (consentId : string) (s : State) :
  let update := updateConsent consentId [("status", "active")] in
  (forall err : JsError,
      srv _ update w = (Rejected err, w1) ->
      requests srv w (handleUpdateStatus consentId s)
      = [Request update;
         Request (alert ("Failed to update consent: " +:+ message_text err))] /\
      result srv w (handleUpdateStatus consentId s) = s) /\
  (srv _ update w = (Resolved tt, w1) ->
   requests srv w (handleUpdateStatus consentId s)
   = [Request update; Request (consentsRequest s)] /\
   result srv w (handleUpdateStatus consentId s) = result srv w1 (fetchConsents s)).
Proof.
  intros update. unfold requests, result, handleUpdateStatus. fold update. split.
  - intros err Hsrv. erewrite run_Await by exact Hsrv. simpl.
    destruct (srv _ _ w1) as [r w2]. split; reflexivity.
  - intros Hsrv. erewrite run_Await by exact Hsrv. cbv beta iota.
    rewrite fetchConsents_requests. split; reflexivity.
Qed.

(** A fetch that brings no consents hides the filter buttons and leaves the
    filter as it was: with a filter other than "all" in force, the render
    offers no way back to the full list. *)
Theorem empty_result_hides_filters (w w' : W) (account : option string) (s : State)
    (response : ConsentsResponse) :
  srv _ (consentsRequest s) w = (Resolved response, w') ->
  default [] (Api.consents response) = [] ->
  let s' := result srv w (fetchConsents s) in
  filterStatus s' = filterStatus s /\
  exists shown : Shown,
    render account s' = Content shown /\
    filterButtons shown = false /\ cards shown = [].
Proof.
  intros Hsrv Hempty s'. subst s'. unfold result, fetchConsents.
  erewrite run_Await by exact Hsrv. simpl. rewrite Hempty.
  split; [reflexivity|]. eexists. split; [reflexivity|]. split; reflexivity.
Qed.

End ConsentFacts.

Lemma create_consent_needs_wallet_witness :
  Api.result Fixture.resolving tt
    (ConsentManagement.handleCreateConsent (Some "") Fixture.filledForm)
  = Fixture.filledForm.
Proof.
  exact (proj2 (create_consent_needs_wallet Fixture.resolving tt (Some "")
                  Fixture.filledForm eq_refl)).
Defined.

Lemma create_consent_failure_keeps_form_witness :
  Api.result Fixture.refusingWallet tt
    (ConsentManagement.handleCreateConsent (Some Fixture.wallet) Fixture.filledForm)
  = Fixture.filledForm.
Proof.
  refine (proj2 (proj1 (create_consent_failure_keeps_form Fixture.refusingWallet tt tt
                          Fixture.wallet Fixture.filledForm
                          {| Api.message := Some "User denied message signature" |} _)
                   eq_refl)).
  discriminate.
Defined.

Lemma create_consent_success_witness :
  ConsentManagement.formData_patientId
    (Api.result Fixture.resolving tt
       (ConsentManagement.handleCreateConsent (Some Fixture.wallet) Fixture.filledForm))
  = "".
Proof.
  rewrite (proj2 (create_consent_success Fixture.resolving tt tt tt Fixture.wallet
                    Fixture.filledForm "0xsigned" ltac:(discriminate) eq_refl eq_refl)).
  reflexivity.
Defined.

Lemma update_status_refetches_on_success_witness :
  Api.requests Fixture.resolving tt
    (ConsentManagement.handleUpdateStatus "consent-001" Fixture.filledForm)
  = [Api.Request (Api.updateConsent "consent-001" [("status", "active")]);
     Api.Request (ConsentManagement.consentsRequest Fixture.filledForm)].
Proof.
  exact (proj1 (proj2 (update_status_refetches_on_success Fixture.resolving tt tt
                         "consent-001" Fixture.filledForm) eq_refl)).
Defined.

Lemma empty_result_hides_filters_witness :
  ConsentManagement.filterStatus
    (Api.result Fixture.noConsents tt
       (ConsentManagement.fetchConsents Fixture.filledForm))
  = "pending".
Proof.
  exact (proj1 (empty_result_hides_filters Fixture.noConsents tt tt None
                  Fixture.filledForm {| Api.consents := Some [] |} eq_refl eq_refl)).
Defined.

(* ===================================================================== *)
(** ** What is rendered after a fetch that resolves *)
(* ===================================================================== *)

Section RenderAfterFetch.

Import Api.

Context {W : Type} (srv : Api.server W).

(** After a fetch that resolves, the three list components render their
    content branch with one card per entity of the response, in the
    response's order (no card when the response has no array); an error shown
    before is gone. *)
Theorem lists_render_the_response (w w' : W) :
  (forall (s : ConsentManagement.State) (account : option string)
          (response : ConsentsResponse),
      srv _ (ConsentManagement.consentsRequest s) w = (Resolved response, w') ->
      exists shown : ConsentManagement.Shown,
        ConsentManagement.render account
          (result srv w (ConsentManagement.fetchConsents s)) = Content shown /\
        ConsentManagement.cards shown = default [] (consents response)) /\
  (forall (s : TransactionHistory.State) (account : option string)
          (response : TransactionsResponse),
      srv _ (getTransactions None 20) w = (Resolved response, w') ->
      exists shown : TransactionHistory.Shown,
        TransactionHistory.render account
          (result srv w (TransactionHistory.fetchTransactions s)) = Content shown /\
        TransactionHistory.cards shown = default [] (transactions response)) /\
  (forall (s : PatientList.State) (response : PatientsResponse) (pg : ServerPagination),
      srv _ (getPatients (PatientList.currentPage s) 10 (PatientList.searchTerm s)) w
      = (Resolved response, w') ->
      pagination response = Some pg ->
      exists shown : PatientList.Shown,
        PatientList.render (result srv w (PatientList.fetchPatients s)) = Content shown /\
        PatientList.cards shown = default [] (patients response) /\
        PatientList.searchBox shown = PatientList.searchInput s).
Proof.
  repeat apply conj.
  - intros s account response Hsrv. unfold result, ConsentManagement.fetchConsents.
    erewrite run_Await by exact Hsrv. eexists. split; reflexivity.
  - intros s account response Hsrv. unfold result.
    rewrite (fetchTransactions_resolved srv _ _ _ _ Hsrv).
    eexists. split; reflexivity.
  - intros s response pg Hsrv Hpg. unfold result.
    rewrite (fetchPatients_resolved srv _ _ _ _ _ Hsrv Hpg).
    eexists. split; [reflexivity|]. split; reflexivity.
Qed.


(** When both requests of PatientDetail resolve: a null patient is rendered
    as the error box "Patient not found", whatever records came with it; a
    patient is rendered with one card per record of the response's [records]
    array, in order. *)
Theorem patient_render_after_fetch (w w1 w2 : W) (patientId : string)
    (s : PatientDetail.State) (patientResponse : option Entity.Patient)
    (recordsResponse : RecordsResponse) :
  srv _ (getPatient patientId) w = (Resolved patientResponse, w1) ->
  srv _ (getPatientRecords patientId) w1 = (Resolved recordsResponse, w2) ->
  PatientDetail.render (result srv w (PatientDetail.fetchPatientData patientId s))
  = match patientResponse with
    | None => ErrorBox "Error loading patient: Patient not found"
    | Some p =>
        Content {| PatientDetail.information := p;
                   PatientDetail.recordCards :=
                     default [] (PatientDetail.records_of recordsResponse) |}
    end.
Proof.
  intros H1 H2. unfold result, PatientDetail.fetchPatientData.
  erewrite run_AwaitAll by eassumption.
  destruct patientResponse; reflexivity.
Qed.


(** An error stored by a failed fetch outlives a wallet disconnect: the
    effect for the empty account empties the list and switches loading off
    but leaves the error, so the error box stays on screen. *)
Theorem error_survives_disconnect (w w' w0 : W) (s : TransactionHistory.State)
    (connected disconnected : option string) (err : JsError) :
  JsString.truthy connected = true ->
  JsString.truthy disconnected = false ->
  srv _ (getTransactions None 20) w = (Rejected err, w') ->
  let s1 := result srv w (TransactionHistory.accountEffect connected s) in
  let s2 := result srv w0 (TransactionHistory.accountEffect disconnected s1) in
  requests srv w0 (TransactionHistory.accountEffect disconnected s1) = [] /\
  TransactionHistory.transactions s2 = [] /\
  TransactionHistory.error s2 = Some (message_or err "Failed to fetch transactions") /\
  TransactionHistory.render disconnected s2
  = ErrorBox ("Error: " +:+ message_or err "Failed to fetch transactions").
Proof.
  intros Hon Hoff Hsrv s1 s2. subst s2 s1.
  unfold result, requests, TransactionHistory.accountEffect. rewrite Hon, Hoff.
  rewrite (fetchTransactions_rejected srv _ _ _ _ Hsrv). simpl.
  set (msg := message_or err "Failed to fetch transactions").
  stored_message msg. destruct msg as [|c m]; [discriminate|].
  repeat split.
Qed.

End RenderAfterFetch.

Lemma lists_render_the_response_witness :
  exists shown : TransactionHistory.Shown,
    TransactionHistory.render (Some Fixture.wallet)
      (Api.result Fixture.resolving tt
         (TransactionHistory.fetchTransactions TransactionHistory.initial))
    = Api.Content shown /\
    TransactionHistory.cards shown = [Fixture.transfer].
Proof.
  exact (proj1 (proj2 (lists_render_the_response Fixture.resolving tt tt))
           TransactionHistory.initial (Some Fixture.wallet)
           {| Api.transactions := Some [Fixture.transfer] |} eq_refl).
Defined.


Lemma patient_render_after_fetch_witness :
  PatientDetail.render
    (Api.result Fixture.nullBodies tt
       (PatientDetail.fetchPatientData "patient-404" PatientDetail.initial))
  = Api.ErrorBox "Error loading patient: Patient not found".
Proof.
  exact (patient_render_after_fetch Fixture.nullBodies tt tt tt "patient-404"
           PatientDetail.initial None (Api.Wrapped (Some [Sample.labReport]))
           eq_refl eq_refl).
Defined.


Lemma error_survives_disconnect_witness :
  TransactionHistory.render None
    (Api.result (Sample.rejecting Sample.networkError) tt
       (TransactionHistory.accountEffect None
          (Api.result (Sample.rejecting Sample.networkError) tt
             (TransactionHistory.accountEffect (Some Fixture.wallet)
                TransactionHistory.initial))))
  = Api.ErrorBox "Error: Network Error".
Proof.
  exact (proj2 (proj2 (proj2
           (error_survives_disconnect (Sample.rejecting Sample.networkError) tt tt tt
              TransactionHistory.initial (Some Fixture.wallet) None Sample.networkError
              eq_refl eq_refl eq_refl)))).
Defined.

(* ===================================================================== *)
(** ** The search debounce: the timer table *)
(* ===================================================================== *)

Section TimerTableFacts.

Import Debounce.

(** However the component is driven after mount, at most one timeout is
    pending; it is the one the effect's cleanup holds, it was armed when
    [searchInput] last changed, and it carries the present [searchInput]. *)
Theorem at_most_one_pending_timer (es : list event) (st : State) (t : Z) :
  exec mount 0 es = Some (st, t) ->
  (length (timers st) <= 1)%nat /\
  forall tm : Timer,
    In tm (timers st) ->
    cleanup st = Some (timerId tm) /\
    due tm = t + 500 /\
    captured tm = PatientList.searchInput (component st).
Proof.
  intros Hexec.
  assert (Harmed : armed st t) by (eapply armed_exec; [apply armed_mount | exact Hexec]).
  destruct Harmed as [_ [Hnil|(id & Htm & Hcl)]].
  - rewrite Hnil. split; [simpl; lia | intros tm []].
  - rewrite Htm. split; [simpl; lia|].
    intros tm [<-|[]]. simpl. repeat split. exact Hcl.
Qed.

Lemma at_most_one_pending_timer_witness :
  exists st : State,
    exec mount 0 Sample.typing = Some (st, 200) /\ (length (timers st) <= 1)%nat.
Proof.
  eexists. split; [reflexivity|].
  exact (proj1 (at_most_one_pending_timer Sample.typing _ 200 eq_refl)).
Defined.

End TimerTableFacts.
